(** * Risk scoring and threshold classification of the SANBI Ecosystem Risk Atlas

    A shallow embedding of the pure computation layer of the dashboard:
    the static tables of [src/app/config.py] and the functions of
    [src/utils/risk_calculations.py] that classify an indicator against
    severity cutoffs, look up catalogue metadata, compute the composite
    risk score and the conservation urgency, and compare a local value
    with the national one.

    Python [float] is IEEE 754 binary64, and so is Rocq's primitive
    [float]: values, literals (rounded to the nearest binary64 value, as
    Python's parser does) and comparisons are modelled with it, NaN and
    signed zeros included.  The numeric parameters are annotated [float] in
    the source and are floats here; an integer argument such as [8] is
    read as the float [8.0].  Python [int] is [Z], [str] is [string], and
    a [dict] with string keys is a [gmap string _].  The only operator of
    the core that can raise is the division of the performance comparison,
    so that function is written in a small monad that records the
    divisions evaluated and how the call ended; the other functions are
    plain total functions. *)

From Stdlib Require Import ZArith List Bool Lia Floats.
From stdpp Require Import base strings gmap.

Set Warnings "-inexact-float".
Local Open Scope string_scope.

(** ** Python values and primitives *)

(** The values stored in the dictionaries the functions return. *)
Inductive pyobj : Type :=
| VStr (s : string)
| VInt (n : Z)
| VFloat (x : float)
| VList (l : list string).

Module Py.

(** The one exception a primitive used by the core can raise. *)
Inductive exn : Type :=
| ZeroDivisionError.

(** Evaluations of the true-division operator, recorded in evaluation
    order. *)
Inductive event : Type :=
| EvTrueDiv (x y : float).

Inductive outcome (A : Type) : Type :=
| Return (a : A)
| Raise (e : exn).
Arguments Return {A} a.
Arguments Raise {A} e.

(** A computation: the divisions it evaluated, and how it ended. *)
Definition M (A : Type) : Type := (list event * outcome A)%type.

Definition ret {A} (a : A) : M A := ([], Return a).

Definition bind {A B} (c : M A) (k : A -> M B) : M B :=
  match c with
  | (log, Return a) => let '(log', r) := k a in ((log ++ log')%list, r)
  | (log, Raise e) => (log, Raise e)
  end.

(** Comparison operators on floats: [x >= y], [x > y], [x <= y],
    [x < y], [x == y].  Each is false as soon as one side is NaN. *)
Definition ge (x y : float) : bool := (y <=? x)%float.
Definition gt (x y : float) : bool := (y <? x)%float.
Definition le (x y : float) : bool := (x <=? y)%float.
Definition lt (x y : float) : bool := (x <? y)%float.
Definition eq (x y : float) : bool := (x =? y)%float.

(** [x / y] on floats raises when the divisor compares equal to zero
    (either signed zero) and is IEEE division otherwise. *)
Definition truediv (x y : float) : M float :=
  ([EvTrueDiv x y],
   if (y =? 0)%float then Raise ZeroDivisionError else Return (x / y)%float).

(** [d.get(k, default)]. *)
Definition get {V} (d : gmap string V) (k : string) (dflt : V) : V :=
  default dflt (d !! k).

(** [not d] for a dictionary: true exactly when it has no entry. *)
Definition not_ {V} (d : gmap string V) : bool :=
  bool_decide (size d = 0).

(** [k in l] for a list of strings. *)
Definition contains (l : list string) (k : string) : bool :=
  bool_decide (k ∈ l).

End Py.

Notation "'let*' x ':=' c 'in' k" := (Py.bind c (fun x => k))
  (at level 10, x name, c at level 100, k at level 200).

(** ** src/app/config.py *)

Module config.

Definition ECOSYSTEM_RISK_THRESHOLDS : gmap string (gmap string float) :=
  list_to_map [
    ("habitat_loss",
      list_to_map [("critical", 4.0%float); ("high", 2.0%float);
                   ("moderate", 1.0%float); ("low", 0.5%float);
                   ("minimal", 0.1%float)]);
    ("annual_decline",
      list_to_map [("critical", 0.4%float); ("high", 0.2%float);
                   ("moderate", 0.1%float); ("low", 0.05%float);
                   ("minimal", 0.01%float)]);
    ("transformation",
      list_to_map [("critical", 50.0%float); ("high", 25.0%float);
                   ("moderate", 15.0%float); ("low", 10.0%float);
                   ("minimal", 5.0%float)]);
    ("protection_gap",
      list_to_map [("critical", 80.0%float); ("high", 60.0%float);
                   ("moderate", 40.0%float); ("low", 20.0%float);
                   ("minimal", 10.0%float)])
  ].

Definition THREAT_LEVELS : gmap string (gmap string pyobj) :=
  list_to_map [
    ("CR", list_to_map [("name", VStr "Critically Endangered");
                        ("color", VStr "#d73027"); ("priority", VInt 5)]);
    ("EN", list_to_map [("name", VStr "Endangered");
                        ("color", VStr "#f46d43"); ("priority", VInt 4)]);
    ("VU", list_to_map [("name", VStr "Vulnerable");
                        ("color", VStr "#fdae61"); ("priority", VInt 3)]);
    ("NT", list_to_map [("name", VStr "Near Threatened");
                        ("color", VStr "#fee08b"); ("priority", VInt 2)]);
    ("LC", list_to_map [("name", VStr "Least Concern");
                        ("color", VStr "#abdda4"); ("priority", VInt 1)]);
    ("", list_to_map [("name", VStr "Data Deficient");
                      ("color", VStr "#cccccc"); ("priority", VInt 0)])
  ].

Definition RISK_COLORS : gmap string string :=
  list_to_map [
    ("critical", "#d73027"); ("high", "#f46d43"); ("moderate", "#fdae61");
    ("low", "#fee08b"); ("minimal", "#abdda4"); ("success", "#2166ac")
  ].

End config.

(** ** src/utils/risk_calculations.py *)

Module risk_calculations.
Import config.
Local Open Scope Z_scope.

Definition get_risk_level_by_threshold (risk_type : string) (value : float)
  : string :=
  let thresholds := Py.get ECOSYSTEM_RISK_THRESHOLDS risk_type ∅ in
  if Py.not_ thresholds then "minimal"
  else if Py.ge value (Py.get thresholds "critical" infinity) then "critical"
  else if Py.ge value (Py.get thresholds "high" infinity) then "high"
  else if Py.ge value (Py.get thresholds "moderate" infinity) then "moderate"
  else if Py.ge value (Py.get thresholds "low" infinity) then "low"
  else "minimal".

Definition get_risk_color_by_threshold (risk_type : string) (value : float)
  : string :=
  let risk_level := get_risk_level_by_threshold risk_type value in
  Py.get RISK_COLORS risk_level "#cccccc".

Definition get_threat_level_info (threat_code : string) : gmap string pyobj :=
  let base_info :=
    Py.get THREAT_LEVELS threat_code (Py.get THREAT_LEVELS "" ∅) in
  let descriptions : gmap string string :=
    list_to_map [
      ("CR", "Facing extremely high risk of extinction in the wild");
      ("EN", "Facing very high risk of extinction in the wild");
      ("VU", "Facing high risk of extinction in the wild");
      ("NT", "Close to qualifying for threatened category");
      ("LC", "Widespread and abundant, lowest risk category")
    ] in
  <["code" := VStr threat_code]>
    (<["description" :=
         VStr (Py.get descriptions threat_code
                 "Classification pending or data deficient")]>
       base_info).

Definition get_protection_level_info (protection_code : string)
  : gmap string pyobj :=
  let protection_info : gmap string (gmap string pyobj) :=
    list_to_map [
      ("WP", list_to_map [
         ("name", VStr "Well Protected");
         ("color", VStr "#2166ac");
         ("description", VStr "Exceeds biodiversity conservation target");
         ("status", VStr "success")]);
      ("MP", list_to_map [
         ("name", VStr "Moderately Protected");
         ("color", VStr "#abdda4");
         ("description", VStr "50-99% of biodiversity target protected");
         ("status", VStr "moderate")]);
      ("PP", list_to_map [
         ("name", VStr "Poorly Protected");
         ("color", VStr "#fdae61");
         ("description", VStr "5-49% of biodiversity target protected");
         ("status", VStr "warning")]);
      ("NP", list_to_map [
         ("name", VStr "Not Protected");
         ("color", VStr "#d73027");
         ("description",
          VStr "Less than 5% of biodiversity target protected");
         ("status", VStr "critical")])
    ] in
  Py.get protection_info protection_code
    (list_to_map [
       ("name", VStr "Unknown");
       ("color", VStr "#cccccc");
       ("description", VStr "Protection status unknown");
       ("status", VStr "unknown")]).

Definition calculate_composite_risk_score
    (iucn_code : string) (annual_decline transformation_pct : float) : Z :=
  let iucn_scores : gmap string Z :=
    list_to_map [("CR", 50); ("EN", 30); ("VU", 15); ("NT", 5); ("LC", 0)]%Z in
  let iucn_score := Py.get iucn_scores iucn_code 0%Z in
  let decline_score : Z :=
    if Py.gt annual_decline 0.3 then 25
    else if Py.gt annual_decline 0.2 then 15
    else if Py.gt annual_decline 0.1 then 10
    else if Py.gt annual_decline 0.05 then 5
    else 0 in
  let transformation_score : Z :=
    if Py.gt transformation_pct 50 then 25
    else if Py.gt transformation_pct 25 then 15
    else if Py.gt transformation_pct 15 then 10
    else 0 in
  (iucn_score + decline_score + transformation_score)%Z.

Section Performance.

(** [format_fixed n x] stands for Python's built-in formatting of a
    float with [n] digits after the point, [format(x, ".nf")]. *)
Variable format_fixed : nat -> float -> string.

(** The default of [metric_type] in the source is ["default"]; here the
    argument is always given. *)
Definition calculate_performance_vs_national
    (local_value national_value : float) (metric_type : string)
  : Py.M (gmap string pyobj) :=
  if Py.eq national_value 0 then
    Py.ret (list_to_map [
      ("category", VStr "No Comparison");
      ("color", VStr "#cccccc");
      ("delta", VInt 0);
      ("delta_formatted", VStr "N/A");
      ("performance_ratio", VFloat 1.0)])
  else
    let delta := (local_value - national_value)%float in
    let* ratio := Py.truediv local_value national_value in
    let better_when_higher :=
      Py.contains ["habitat"; "protection"; "natural"] metric_type in
    let better_when_lower :=
      Py.contains ["threat"; "decline"; "transformation"; "loss"]
        metric_type in
    let '(category, color) :=
      if better_when_lower then
        if Py.le ratio 0.7 then ("Much Better", "#2166ac")
        else if Py.le ratio 0.9 then ("Better", "#abdda4")
        else if Py.le ratio 1.1 then ("Similar", "#ffffbf")
        else if Py.le ratio 1.3 then ("Worse", "#fdae61")
        else ("Much Worse", "#d73027")
      else if better_when_higher then
        if Py.ge ratio 1.3 then ("Much Better", "#2166ac")
        else if Py.ge ratio 1.1 then ("Better", "#abdda4")
        else if Py.ge ratio 0.9 then ("Similar", "#ffffbf")
        else if Py.ge ratio 0.7 then ("Worse", "#fdae61")
        else ("Much Worse", "#d73027")
      else
        if Py.le (abs (ratio - 1)) 0.1 then ("Similar", "#ffffbf")
        else if Py.le (abs (ratio - 1)) 0.3
             then ("Moderate Difference", "#fdae61")
        else ("Large Difference", "#d73027") in
    let delta_sign := if Py.gt delta 0 then "+" else "" in
    let delta_formatted :=
      if Py.ge (abs delta) 1
      then delta_sign +:+ format_fixed 1 delta +:+ "pp"
      else delta_sign +:+ format_fixed 2 delta +:+ "pp" in
    Py.ret (list_to_map [
      ("category", VStr category);
      ("color", VStr color);
      ("delta", VFloat delta);
      ("delta_formatted", VStr delta_formatted);
      ("performance_ratio", VFloat ratio);
      ("local_value", VFloat local_value);
      ("national_value", VFloat national_value)]).

End Performance.

Definition categorize_ecosystem_urgency
    (iucn_code : string) (annual_decline current_natural : float)
    (protection_level : string) : gmap string pyobj :=
  let urgency_score := 0 in
  let iucn_urgency : gmap string Z :=
    list_to_map [("CR", 4); ("EN", 3); ("VU", 2); ("NT", 1); ("LC", 0)] in
  let urgency_score := urgency_score + Py.get iucn_urgency iucn_code 0 in
  let urgency_score :=
    if Py.gt annual_decline 0.3 then urgency_score + 3
    else if Py.gt annual_decline 0.1 then urgency_score + 2
    else if Py.gt annual_decline 0.05 then urgency_score + 1
    else urgency_score in
  let urgency_score :=
    if Py.lt current_natural 30 then urgency_score + 3
    else if Py.lt current_natural 50 then urgency_score + 2
    else if Py.lt current_natural 70 then urgency_score + 1
    else urgency_score in
  let protection_urgency : gmap string Z :=
    list_to_map [("NP", 2); ("PP", 1); ("MP", 0); ("WP", -1)] in
  let urgency_score :=
    urgency_score + Py.get protection_urgency protection_level 0 in
  let '(category, color, timeframe, actions) :=
    if urgency_score >=? 8 then
      ("Emergency", "#8B0000", "Immediate (0-1 years)",
       ["Emergency intervention"; "Immediate threat mitigation";
        "Expert assessment"])
    else if urgency_score >=? 6 then
      ("Critical", "#d73027", "Urgent (1-3 years)",
       ["Priority conservation"; "Threat assessment"; "Management plan"])
    else if urgency_score >=? 4 then
      ("High", "#f46d43", "High priority (3-5 years)",
       ["Active management"; "Monitoring program"; "Threat reduction"])
    else if urgency_score >=? 2 then
      ("Moderate", "#fdae61", "Regular monitoring (5-10 years)",
       ["Regular monitoring"; "Preventive measures"; "Research needs"])
    else
      ("Low", "#abdda4", "Stable management",
       ["Maintain current protection"; "Periodic assessment"]) in
  list_to_map [
    ("category", VStr category);
    ("color", VStr color);
    ("urgency_score", VInt urgency_score);
    ("timeframe", VStr timeframe);
    ("recommended_actions", VList actions)].

End risk_calculations.

(** ** The specification's own wording

    Definitions that follow the sentences of the specification, to be
    compared with the functions above. *)

Module Spec.
Local Open Scope Z_scope.

(** Composite score: the three sub-scores. *)
Definition threat_score (t : string) : Z :=
  if decide (t = "CR") then 50
  else if decide (t = "EN") then 30
  else if decide (t = "VU") then 15
  else if decide (t = "NT") then 5
  else if decide (t = "LC") then 0
  else 0.

Definition decline_score (d : float) : Z :=
  if (0.3 <? d)%float then 25
  else if (0.2 <? d)%float then 15
  else if (0.1 <? d)%float then 10
  else if (0.05 <? d)%float then 5
  else 0.

Definition transformation_score (p : float) : Z :=
  if (50 <? p)%float then 25
  else if (25 <? p)%float then 15
  else if (15 <? p)%float then 10
  else 0.

(** Urgency: the four contributions and the category thresholds. *)
Definition urgency_threat (t : string) : Z :=
  if decide (t = "CR") then 4
  else if decide (t = "EN") then 3
  else if decide (t = "VU") then 2
  else if decide (t = "NT") then 1
  else if decide (t = "LC") then 0
  else 0.

Definition urgency_decline (d : float) : Z :=
  if (0.3 <? d)%float then 3
  else if (0.1 <? d)%float then 2
  else if (0.05 <? d)%float then 1
  else 0.

Definition urgency_habitat (n : float) : Z :=
  if (n <? 30)%float then 3
  else if (n <? 50)%float then 2
  else if (n <? 70)%float then 1
  else 0.

Definition urgency_protection (c : string) : Z :=
  if decide (c = "NP") then 2
  else if decide (c = "PP") then 1
  else if decide (c = "MP") then 0
  else if decide (c = "WP") then -1
  else 0.

Definition urgency_score (t : string) (d n : float) (c : string) : Z :=
  urgency_threat t + urgency_decline d + urgency_habitat n
  + urgency_protection c.

Definition urgency_category (score : Z) : string :=
  if 8 <=? score then "Emergency"
  else if 6 <=? score then "Critical"
  else if 4 <=? score then "High"
  else if 2 <=? score then "Moderate"
  else "Low".

(** Performance comparison: the two metric sets and the three ways of
    reading the ratio. *)
Definition lower_is_better : list string :=
  ["threat"; "decline"; "transformation"; "loss"].

Definition higher_is_better : list string :=
  ["habitat"; "protection"; "natural"].

Definition category_lower_is_better (ratio : float) : string :=
  if (ratio <=? 0.7)%float then "Much Better"
  else if (ratio <=? 0.9)%float then "Better"
  else if (ratio <=? 1.1)%float then "Similar"
  else if (ratio <=? 1.3)%float then "Worse"
  else "Much Worse".

Definition category_higher_is_better (ratio : float) : string :=
  if (1.3 <=? ratio)%float then "Much Better"
  else if (1.1 <=? ratio)%float then "Better"
  else if (0.9 <=? ratio)%float then "Similar"
  else if (0.7 <=? ratio)%float then "Worse"
  else "Much Worse".

Definition category_other (ratio : float) : string :=
  if (abs (ratio - 1) <=? 0.1)%float then "Similar"
  else if (abs (ratio - 1) <=? 0.3)%float then "Moderate Difference"
  else "Large Difference".

Definition performance_category (metric_type : string) (ratio : float)
  : string :=
  if decide (metric_type ∈ lower_is_better)
  then category_lower_is_better ratio
  else if decide (metric_type ∈ higher_is_better)
  then category_higher_is_better ratio
  else category_other ratio.

(** Delta formatting: signed, one decimal when the magnitude is at least
    1 and two decimals otherwise, suffixed "pp". *)
Definition format_delta (format_fixed : nat -> float -> string)
    (delta : float) : string :=
  (if (0 <? delta)%float then "+" else "")
  +:+ (if (1 <=? abs delta)%float
       then format_fixed 1%nat delta else format_fixed 2%nat delta)
  +:+ "pp".

(** Severity order: critical > high > moderate > low > minimal. *)
Definition severity_order : list string :=
  ["critical"; "high"; "moderate"; "low"; "minimal"].

Definition severity_rank (level : string) : nat :=
  if decide (level = "critical") then 4
  else if decide (level = "high") then 3
  else if decide (level = "moderate") then 2
  else if decide (level = "low") then 1
  else 0.

Definition dimensions : list string :=
  ["habitat_loss"; "annual_decline"; "transformation"; "protection_gap"].

(** The cutoffs of a dimension, listed down the severity order. *)
Definition cutoffs (thresholds : gmap string float) : list (option float) :=
  map (fun level => thresholds !! level) severity_order.

Fixpoint strictly_decreasing (l : list float) : bool :=
  match l with
  | a :: (b :: _) as rest => (b <? a)%float && strictly_decreasing rest
  | _ => true
  end.

(** Scanning ordered (severity, cutoff) pairs: the first severity whose
    cutoff is at most the value, ["minimal"] when there is none. *)
Fixpoint first_match (pairs : list (string * float)) (v : float) : string :=
  match pairs with
  | [] => "minimal"
  | (level, cutoff) :: rest =>
      if (cutoff <=? v)%float then level else first_match rest v
  end.

(** The cutoffs the classifier reads, most severe first. *)
Definition consulted (thresholds : gmap string float)
  : list (string * float) :=
  map (fun level => (level, Py.get thresholds level infinity))
      ["critical"; "high"; "moderate"; "low"].

End Spec.

Import config risk_calculations.

(** ** Returned records in closed form

    The dictionaries the source builds, written as functions of the
    quantities the specification names; the strings are those of the
    source. *)

(** The color the source pairs with each performance category. *)
Definition performance_color (category : string) : string :=
  if decide (category = "Much Better") then "#2166ac"
  else if decide (category = "Better") then "#abdda4"
  else if decide (category = "Similar") then "#ffffbf"
  else if decide (category = "Worse") then "#fdae61"
  else if decide (category = "Moderate Difference") then "#fdae61"
  else "#d73027".

(** The record returned when the national value is zero. *)
Definition no_comparison : gmap string pyobj :=
  list_to_map [
    ("category", VStr "No Comparison");
    ("color", VStr "#cccccc");
    ("delta", VInt 0);
    ("delta_formatted", VStr "N/A");
    ("performance_ratio", VFloat 1.0)].

(** The record returned otherwise. *)
Definition comparison (format_fixed : nat -> float -> string)
    (local_value national_value : float) (metric_type : string)
  : gmap string pyobj :=
  let ratio := (local_value / national_value)%float in
  let delta := (local_value - national_value)%float in
  let category := Spec.performance_category metric_type ratio in
  list_to_map [
    ("category", VStr category);
    ("color", VStr (performance_color category));
    ("delta", VFloat delta);
    ("delta_formatted", VStr (Spec.format_delta format_fixed delta));
    ("performance_ratio", VFloat ratio);
    ("local_value", VFloat local_value);
    ("national_value", VFloat national_value)].

(** The timeframe and the ordered actions the source pairs with each
    urgency category. *)
Definition urgency_timeframe (category : string) : string :=
  if decide (category = "Emergency") then "Immediate (0-1 years)"
  else if decide (category = "Critical") then "Urgent (1-3 years)"
  else if decide (category = "High") then "High priority (3-5 years)"
  else if decide (category = "Moderate")
       then "Regular monitoring (5-10 years)"
  else "Stable management".

Definition urgency_actions (category : string) : list string :=
  if decide (category = "Emergency") then
    ["Emergency intervention"; "Immediate threat mitigation";
     "Expert assessment"]
  else if decide (category = "Critical") then
    ["Priority conservation"; "Threat assessment"; "Management plan"]
  else if decide (category = "High") then
    ["Active management"; "Monitoring program"; "Threat reduction"]
  else if decide (category = "Moderate") then
    ["Regular monitoring"; "Preventive measures"; "Research needs"]
  else ["Maintain current protection"; "Periodic assessment"].

(** The color the source pairs with each urgency category. *)
Definition urgency_color (category : string) : string :=
  if decide (category = "Emergency") then "#8B0000"
  else if decide (category = "Critical") then "#d73027"
  else if decide (category = "High") then "#f46d43"
  else if decide (category = "Moderate") then "#fdae61"
  else "#abdda4".

(** The record returned for an accumulated score. *)
Definition urgency_record (score : Z) : gmap string pyobj :=
  let category := Spec.urgency_category score in
  list_to_map [
    ("category", VStr category);
    ("color", VStr (urgency_color category));
    ("urgency_score", VInt score);
    ("timeframe", VStr (urgency_timeframe category));
    ("recommended_actions", VList (urgency_actions category))].

(** ** Further functions of the sources

    [assess_risk_trajectory] of [src/utils/risk_calculations.py], the
    second performance categorisation of
    [src/components/comparison_metrics.py] and the description lookup of
    [src/pages/Overview.py]. *)

Module PyKey.

(** A computation that may end in a [KeyError]: the subscript [d[k]] is
    the one operation that raises it. *)
Inductive result (A : Type) : Type :=
| Ok (a : A)
| KeyError (k : string).
Arguments Ok {A} a.
Arguments KeyError {A} k.

Definition ret {A} (a : A) : result A := Ok a.

Definition bind {A B} (c : result A) (k : A -> result B) : result B :=
  match c with
  | Ok a => k a
  | KeyError key => KeyError key
  end.

(** [d[k]]. *)
Definition getitem {V} (d : gmap string V) (k : string) : result V :=
  match d !! k with
  | Some v => Ok v
  | None => KeyError k
  end.

(** [d.update(e)]: the entries of [e] replace those of [d]. *)
Definition update {V} (d e : gmap string V) : gmap string V := e ∪ d.

(** [o == s] for a stored value [o] and a string [s]. *)
Definition eq_str (o : pyobj) (s : string) : bool :=
  match o with
  | VStr s' => bool_decide (s' = s)
  | _ => false
  end.

(** [o in l] for a stored value [o] and a list of strings [l]. *)
Definition in_strs (o : pyobj) (l : list string) : bool :=
  existsb (eq_str o) l.

End PyKey.

Notation "'let?' x ':=' c 'in' k" := (PyKey.bind c (fun x => k))
  (at level 10, x name, c at level 100, k at level 200).
Notation "'let?' ' p ':=' c 'in' k" :=
  (PyKey.bind c (fun x => match x with p => k end))
  (at level 10, p pattern, c at level 100, k at level 200).

(** What the dictionary returned by [assess_risk_trajectory] holds: two
    dictionaries and a list of strings. *)
Inductive pyitem : Type :=
| IDict (d : gmap string pyobj)
| IList (l : list string).

Module risk_trajectory.
Import PyKey.

Definition assess_risk_trajectory
    (current_natural annual_decline : float) (protection_level : string)
  : result (gmap string pyitem) :=
  let trajectory : gmap string pyobj :=
    list_to_map [("level", VStr "stable"); ("color", VStr "#abdda4");
                 ("urgency", VStr "low")] in
  let recommendations : list string := [] in
  let '(trajectory, recommendations) :=
    if Py.lt current_natural 30 then
      (update trajectory
         (list_to_map [("level", VStr "critical"); ("color", VStr "#d73027");
                       ("urgency", VStr "immediate")]),
       ((recommendations ++ ["Immediate intervention required"])
          ++ ["Emergency conservation measures needed"])%list)
    else if Py.lt current_natural 50 then
      (update trajectory
         (list_to_map [("level", VStr "high_risk"); ("color", VStr "#f46d43");
                       ("urgency", VStr "high")]),
       (recommendations ++ ["Urgent conservation action required"])%list)
    else if Py.lt current_natural 70 then
      (update trajectory
         (list_to_map [("level", VStr "moderate_risk");
                       ("color", VStr "#fdae61");
                       ("urgency", VStr "moderate")]),
       (recommendations ++ ["Active monitoring and management needed"])%list)
    else (trajectory, recommendations) in
  let? '(trajectory, recommendations) :=
    if Py.gt annual_decline 0.2 then
      let? urgency := getitem trajectory "urgency" in
      let trajectory :=
        if negb (eq_str urgency "immediate")
        then update trajectory (list_to_map [("urgency", VStr "high")])
        else trajectory in
      ret (trajectory,
           (recommendations ++ ["Address rapid decline causes"])%list)
    else if Py.gt annual_decline 0.1 then
      ret (trajectory,
           (recommendations ++ ["Monitor decline trends closely"])%list)
    else ret (trajectory, recommendations) in
  let protection_info := get_protection_level_info protection_level in
  let? status := getitem protection_info "status" in
  let? '(trajectory, recommendations) :=
    if in_strs status ["critical"; "warning"] then
      let recommendations :=
        (recommendations ++ ["Improve protection coverage"])%list in
      let? urgency := getitem trajectory "urgency" in
      let trajectory :=
        if eq_str urgency "low"
        then update trajectory (list_to_map [("urgency", VStr "moderate")])
        else trajectory in
      ret (trajectory, recommendations)
    else ret (trajectory, recommendations) in
  ret (list_to_map [
    ("trajectory", IDict trajectory);
    ("recommendations", IList recommendations);
    ("protection_status", IDict protection_info)]).

End risk_trajectory.

(** [ComparisonMetrics.calculate_performance_category]; the method does
    not use [self]. *)
Module comparison_metrics.

Definition calculate_performance_category
    (local_value national_value : float) (metric_type : string)
  : Py.M (gmap string pyobj) :=
  if Py.eq national_value 0 then
    Py.ret (list_to_map [("category", VStr "No Comparison");
                         ("color", VStr "#cccccc")])
  else
    let* ratio := Py.truediv local_value national_value in
    if Py.contains ["threat"; "decline"; "transformation"] metric_type then
      if Py.le ratio 0.7 then
        Py.ret (list_to_map [("category", VStr "Much Better");
                             ("color", VStr "#2166ac")])
      else if Py.le ratio 0.9 then
        Py.ret (list_to_map [("category", VStr "Better");
                             ("color", VStr "#abdda4")])
      else if Py.le ratio 1.1 then
        Py.ret (list_to_map [("category", VStr "Similar");
                             ("color", VStr "#ffffbf")])
      else if Py.le ratio 1.3 then
        Py.ret (list_to_map [("category", VStr "Worse");
                             ("color", VStr "#fdae61")])
      else
        Py.ret (list_to_map [("category", VStr "Much Worse");
                             ("color", VStr "#d73027")])
    else
      if Py.ge ratio 1.3 then
        Py.ret (list_to_map [("category", VStr "Much Better");
                             ("color", VStr "#2166ac")])
      else if Py.ge ratio 1.1 then
        Py.ret (list_to_map [("category", VStr "Better");
                             ("color", VStr "#abdda4")])
      else if Py.ge ratio 0.9 then
        Py.ret (list_to_map [("category", VStr "Similar");
                             ("color", VStr "#ffffbf")])
      else if Py.ge ratio 0.7 then
        Py.ret (list_to_map [("category", VStr "Worse");
                             ("color", VStr "#fdae61")])
      else
        Py.ret (list_to_map [("category", VStr "Much Worse");
                             ("color", VStr "#d73027")]).

End comparison_metrics.

Module Overview.

Definition get_threat_description (code : string) : string :=
  let descriptions : gmap string string :=
    list_to_map [
      ("CR", "Facing extremely high risk of extinction in the wild");
      ("EN", "Facing very high risk of extinction in the wild");
      ("VU", "Facing high risk of extinction in the wild");
      ("NT", "Close to qualifying for threatened category");
      ("LC", "Widespread and abundant, lowest risk category")
    ] in
  Py.get descriptions code "Classification pending or data deficient".

End Overview.

Import risk_trajectory comparison_metrics.

(** Orders used to state the properties of the further functions. *)

(** Urgency of a trajectory: low < moderate < high < immediate. *)
Definition trajectory_urgency_rank (urgency : string) : nat :=
  if decide (urgency = "immediate") then 3
  else if decide (urgency = "high") then 2
  else if decide (urgency = "moderate") then 1
  else 0.

(** The urgency each habitat band sets on its own. *)
Definition habitat_urgency_rank (current_natural : float) : nat :=
  if Py.lt current_natural 30 then 3
  else if Py.lt current_natural 50 then 2
  else if Py.lt current_natural 70 then 1
  else 0.

(** Points of the urgency score that go with a trajectory level. *)
Definition level_points (level : string) : Z :=
  if decide (level = "critical") then 3
  else if decide (level = "high_risk") then 2
  else if decide (level = "moderate_risk") then 1
  else 0.

(** [x != x], which holds of NaN only. *)
Definition is_nan (x : float) : bool := negb (Py.eq x x).

(** The urgency a fast decline and a poor protection set on their own. *)
Definition decline_urgency_rank (annual_decline : float) : nat :=
  if Py.gt annual_decline 0.2 then 2 else 0.

Definition poorly_protected (protection_level : string) : bool :=
  Py.contains ["NP"; "PP"] protection_level.

Definition protection_urgency_rank (protection_level : string) : nat :=
  if poorly_protected protection_level then 1 else 0.

Definition urgency_of_rank (rank : nat) : string :=
  match rank with
  | 0 => "low"
  | 1 => "moderate"
  | 2 => "high"
  | _ => "immediate"
  end.

(** The level and color of each habitat band, and the recommendations
    each of the three assessments appends. *)
Definition habitat_level (current_natural : float) : string * string :=
  if Py.lt current_natural 30 then ("critical", "#d73027")
  else if Py.lt current_natural 50 then ("high_risk", "#f46d43")
  else if Py.lt current_natural 70 then ("moderate_risk", "#fdae61")
  else ("stable", "#abdda4").

Definition habitat_recommendations (current_natural : float) : list string :=
  if Py.lt current_natural 30 then
    ["Immediate intervention required";
     "Emergency conservation measures needed"]
  else if Py.lt current_natural 50 then
    ["Urgent conservation action required"]
  else if Py.lt current_natural 70 then
    ["Active monitoring and management needed"]
  else [].

Definition decline_recommendations (annual_decline : float) : list string :=
  if Py.gt annual_decline 0.2 then ["Address rapid decline causes"]
  else if Py.gt annual_decline 0.1 then ["Monitor decline trends closely"]
  else [].

Definition protection_recommendations (protection_level : string)
  : list string :=
  if poorly_protected protection_level
  then ["Improve protection coverage"] else [].

(** The dictionary [assess_risk_trajectory] returns, in closed form. *)
Definition assessment (current_natural annual_decline : float)
    (protection_level : string) : gmap string pyitem :=
  list_to_map [
    ("trajectory",
     IDict (list_to_map [
       ("level", VStr (habitat_level current_natural).1);
       ("color", VStr (habitat_level current_natural).2);
       ("urgency",
        VStr (urgency_of_rank
                (habitat_urgency_rank current_natural
                 `max` (decline_urgency_rank annual_decline
                        `max` protection_urgency_rank protection_level))))]));
    ("recommendations",
     IList (habitat_recommendations current_natural
            ++ decline_recommendations annual_decline
            ++ protection_recommendations protection_level)%list);
    ("protection_status",
     IDict (get_protection_level_info protection_level))].

(** What a caller reads from a result: [r["trajectory"][k]],
    [r["recommendations"]], and [r[k]] of a performance record. *)
Definition trajectory_field (r : PyKey.result (gmap string pyitem))
    (k : string) : option pyobj :=
  match r with
  | PyKey.Ok m =>
      match m !! "trajectory" with
      | Some (IDict t) => t !! k
      | _ => None
      end
  | PyKey.KeyError _ => None
  end.

Definition recommendations_field (r : PyKey.result (gmap string pyitem))
  : option (list string) :=
  match r with
  | PyKey.Ok m =>
      match m !! "recommendations" with
      | Some (IList l) => Some l
      | _ => None
      end
  | PyKey.KeyError _ => None
  end.

Definition field (c : Py.M (gmap string pyobj)) (k : string)
  : option pyobj :=
  match c with
  | (_, Py.Return r) => r !! k
  | (_, Py.Raise _) => None
  end.

(** ** Floating-point order

    The facts about IEEE comparison the proofs need, obtained from the
    specification of the primitive operations; they hold for every
    binary64 value, NaN and the infinities included. *)

Section SpecFloatOrder.
Local Open Scope Z_scope.

Ltac sf_cases :=
  repeat match goal with
  | x : spec_float |- _ => destruct x
  | b : bool |- _ => destruct b
  end;
  simpl; try first [ reflexivity | discriminate ].

Ltac cmp_cases :=
  repeat match goal with
  | |- context [ (?a ?= ?b)%Z ] =>
      destruct (Z.compare_spec a b); simpl;
      try first [ reflexivity | discriminate | lia ]
  | H : context [ (?a ?= ?b)%Z ] |- _ =>
      destruct (Z.compare_spec a b); simpl in H;
      try first [ discriminate | lia ]
  | |- context [ Pos.compare_cont Eq ?a ?b ] =>
      change (Pos.compare_cont Eq a b) with (Pos.compare a b);
      destruct (Pos.compare_spec a b); simpl;
      try first [ reflexivity | discriminate | lia ]
  | H : context [ Pos.compare_cont Eq ?a ?b ] |- _ =>
      change (Pos.compare_cont Eq a b) with (Pos.compare a b) in H;
      destruct (Pos.compare_spec a b); simpl in H;
      try first [ discriminate | lia ]
  end.

Lemma SFleb_SFltb_trans (a b c : spec_float) :
  SFleb a b = true -> SFltb b c = true -> SFleb a c = true.
Proof.
  unfold SFleb, SFltb, SFcompare.
  sf_cases; intros H1 H2; cmp_cases.
Qed.

Lemma SFltb_SFleb_false (a b : spec_float) :
  SFltb a b = true -> SFleb b a = false.
Proof.
  unfold SFleb, SFltb, SFcompare.
  sf_cases; intros H1; cmp_cases.
Qed.

Lemma SFeqb_SFleb_congr (a b x : spec_float) :
  SFeqb a b = true -> SFleb x a = SFleb x b.
Proof.
  unfold SFleb, SFeqb, SFcompare.
  sf_cases; intros H1; cmp_cases; subst; cmp_cases; reflexivity.
Qed.

End SpecFloatOrder.

(** [x >= c] is preserved when [x] grows. *)
Lemma ge_mono (c v1 v2 : float) :
  Py.lt v1 v2 = true -> Py.ge v1 c = true -> Py.ge v2 c = true.
Proof.
  unfold Py.lt, Py.ge. rewrite !leb_spec, ltb_spec.
  intros Hlt Hge. exact (SFleb_SFltb_trans _ _ _ Hge Hlt).
Qed.

(** [x < c] excludes [x >= c]. *)
Lemma lt_not_ge (c v : float) :
  Py.lt v c = true -> Py.ge v c = false.
Proof.
  unfold Py.lt, Py.ge. rewrite leb_spec, ltb_spec.
  apply SFltb_SFleb_false.
Qed.

(** Two floats that compare equal satisfy the same [>= c] tests. *)
Lemma eq_ge_congr (c v w : float) :
  Py.eq v w = true -> Py.ge v c = Py.ge w c.
Proof.
  unfold Py.eq, Py.ge. rewrite !leb_spec, FloatAxioms.eqb_spec.
  apply SFeqb_SFleb_congr.
Qed.

(** ** Dictionary lookups at an arbitrary key *)

(** Splits on whether the key is one of the literal keys of the
    dictionary; in the last case the lookup falls through to the default. *)
Ltac lookup_literal :=
  rewrite ?list_to_map_cons, ?list_to_map_nil;
  repeat match goal with
  | |- context [ <[?k' := _]> _ !! ?k ] =>
      destruct (decide (k = k')) as [->|?];
      [ vm_compute; reflexivity | rewrite (lookup_insert_ne _ k' k) by congruence ]
  end;
  rewrite ?lookup_empty.

Lemma iucn_scores_get (t : string) :
  Py.get (list_to_map [("CR", 50); ("EN", 30); ("VU", 15); ("NT", 5);
                       ("LC", 0)]%Z) t 0%Z
  = Spec.threat_score t.
Proof.
  unfold Py.get, Spec.threat_score.
  lookup_literal.
  repeat case_decide; try congruence; reflexivity.
Qed.

(** The composite score is the sum of the three banded sub-scores. *)
Lemma composite_score_sum (t : string) (d p : float) :
  calculate_composite_risk_score t d p
  = (Spec.threat_score t + Spec.decline_score d
     + Spec.transformation_score p)%Z.
Proof.
  unfold calculate_composite_risk_score. cbv zeta.
  rewrite iucn_scores_get. reflexivity.
Qed.

(** Each sub-score stays within its band. *)
Lemma threat_score_range (t : string) :
  (Spec.threat_score t ∈ [0; 5; 15; 30; 50]%Z).
Proof.
  unfold Spec.threat_score. repeat case_decide; set_solver.
Qed.

Lemma decline_score_range (d : float) :
  (Spec.decline_score d ∈ [0; 5; 10; 15; 25]%Z).
Proof.
  unfold Spec.decline_score.
  repeat match goal with |- context [ if ?b then _ else _ ] => destruct b end;
    set_solver.
Qed.

Lemma transformation_score_range (p : float) :
  (Spec.transformation_score p ∈ [0; 10; 15; 25]%Z).
Proof.
  unfold Spec.transformation_score.
  repeat match goal with |- context [ if ?b then _ else _ ] => destruct b end;
    set_solver.
Qed.

(** Membership in a literal list of integers, as a disjunction for [lia]. *)
Ltac elem_cases H :=
  repeat (apply elem_of_cons in H as [H|H]); [ .. | by apply elem_of_nil in H ].

(** C1: for every threat code [t], annual decline [d] and transformation
    percentage [p], [calculate_composite_risk_score t d p] is the sum of
    the threat score of the fixed table (CR 50, EN 30, VU 15, NT 5, LC 0,
    any other code 0), the decline score banded with strict comparisons
    (above 0.3 gives 25, above 0.2 gives 15, above 0.1 gives 10, above 0.05
    gives 5, otherwise 0) and the transformation score banded with strict
    comparisons (above 50 gives 25, above 25 gives 15, above 15 gives 10,
    otherwise 0).  At a decline of exactly 0.3 the decline contribution is
    15, and the three worked examples evaluate to 60, 0 and 100. *)
Theorem composite_score_strict_bands :
  (forall (t : string) (d p : float),
     calculate_composite_risk_score t d p
     = (Spec.threat_score t + Spec.decline_score d
        + Spec.transformation_score p)%Z)
  /\ (forall (t : string) (p : float),
        calculate_composite_risk_score t 0.3 p
        = (Spec.threat_score t + 15 + Spec.transformation_score p)%Z)
  /\ calculate_composite_risk_score "EN" 0.25 30 = 60%Z
  /\ calculate_composite_risk_score "LC" 0 0 = 0%Z
  /\ calculate_composite_risk_score "CR" 0.31 51 = 100%Z.
Proof.
  split; [ exact composite_score_sum | ].
  split; [ intros t p; rewrite composite_score_sum; reflexivity | ].
  repeat split; vm_compute; reflexivity.
Qed.

(** C8: the composite score lies in the closed interval from 0 to 100; it
    is 100 exactly when the three sub-scores are maximal (threat 50,
    decline 25, transformation 25), it is 0 exactly when the three are 0,
    and both ends are attained. *)
Theorem composite_score_range :
  (forall (t : string) (d p : float),
     (0 <= calculate_composite_risk_score t d p <= 100)%Z)
  /\ (forall (t : string) (d p : float),
        calculate_composite_risk_score t d p = 100%Z
        <-> (Spec.threat_score t = 50 /\ Spec.decline_score d = 25
             /\ Spec.transformation_score p = 25)%Z)
  /\ (forall (t : string) (d p : float),
        calculate_composite_risk_score t d p = 0%Z
        <-> (Spec.threat_score t = 0 /\ Spec.decline_score d = 0
             /\ Spec.transformation_score p = 0)%Z)
  /\ calculate_composite_risk_score "CR" 0.31 51 = 100%Z
  /\ calculate_composite_risk_score "LC" 0 0 = 0%Z.
Proof.
  assert (Hall : forall t d p,
             (0 <= Spec.threat_score t <= 50
              /\ 0 <= Spec.decline_score d <= 25
              /\ 0 <= Spec.transformation_score p <= 25)%Z).
  { intros t d p.
    pose proof (threat_score_range t) as Ht.
    pose proof (decline_score_range d) as Hd.
    pose proof (transformation_score_range p) as Hp.
    elem_cases Ht; elem_cases Hd; elem_cases Hp; lia. }
  do 3 (split;
          [ intros t d p; rewrite composite_score_sum;
            specialize (Hall t d p); lia | ]).
  split; vm_compute; reflexivity.
Qed.

(** Case analysis on a successful lookup in a dictionary literal: the key
    is one of the literal keys, and the value found is the one next to it. *)
Ltac lookup_literal_in H :=
  rewrite ?list_to_map_cons, ?list_to_map_nil in H;
  repeat match type of H with
  | <[?k' := _]> _ !! ?k = Some _ =>
      destruct (decide (k = k')) as [->|?];
      [ rewrite lookup_insert_eq in H; injection H as <-
      | rewrite (lookup_insert_ne _ k' k) in H by congruence ]
  end;
  try (rewrite lookup_empty in H; discriminate H).

(** ** The classifier *)

Lemma thresholds_unrecognized (d : string) :
  d ∉ Spec.dimensions -> ECOSYSTEM_RISK_THRESHOLDS !! d = None.
Proof.
  unfold Spec.dimensions. intros Hd.
  repeat (apply not_elem_of_cons in Hd as [? Hd]).
  unfold ECOSYSTEM_RISK_THRESHOLDS.
  rewrite !list_to_map_cons, !list_to_map_nil.
  rewrite !lookup_insert_ne by congruence.
  apply lookup_empty.
Qed.

Lemma thresholds_recognized (d : string) (t : gmap string float) :
  ECOSYSTEM_RISK_THRESHOLDS !! d = Some t -> d ∈ Spec.dimensions.
Proof.
  intros Ht. destruct (decide (d ∈ Spec.dimensions)) as [|Hd]; [ done | ].
  rewrite (thresholds_unrecognized d Hd) in Ht. discriminate.
Qed.

(** On a recognized dimension the classifier is the scan of the four
    consulted cutoffs, most severe first. *)
Lemma classify_first_match (d : string) (t : gmap string float) (v : float) :
  ECOSYSTEM_RISK_THRESHOLDS !! d = Some t ->
  get_risk_level_by_threshold d v = Spec.first_match (Spec.consulted t) v.
Proof.
  intros Ht. unfold ECOSYSTEM_RISK_THRESHOLDS in Ht.
  lookup_literal_in Ht; vm_compute; reflexivity.
Qed.

Lemma classify_unrecognized (d : string) (v : float) :
  d ∉ Spec.dimensions -> get_risk_level_by_threshold d v = "minimal".
Proof.
  intros Hd. unfold get_risk_level_by_threshold, Py.get at 1.
  rewrite (thresholds_unrecognized d Hd). reflexivity.
Qed.

(** Values that compare equal are classified alike. *)
Lemma classify_eq_congr (d : string) (v w : float) :
  Py.eq v w = true ->
  get_risk_level_by_threshold d v = get_risk_level_by_threshold d w.
Proof.
  intros Heq. unfold get_risk_level_by_threshold. cbv zeta.
  rewrite !(eq_ge_congr _ v w Heq). reflexivity.
Qed.

(** A scan returns ["minimal"] when the value is below every cutoff of
    the list. *)
Lemma first_match_below (pairs : list (string * float)) (v : float) :
  (forall level c, (level, c) ∈ pairs -> Py.lt v c = true) ->
  Spec.first_match pairs v = "minimal".
Proof.
  induction pairs as [|[level c] rest IH]; intros Hbelow; simpl.
  - reflexivity.
  - assert (Hc : Py.ge v c = false).
    { apply lt_not_ge, (Hbelow level). left. }
    unfold Py.ge in Hc. rewrite Hc.
    apply IH. intros level' c' Hin. apply (Hbelow level'). by right.
Qed.

(** The pairs the classifier consults are entries of the table. *)
Lemma consulted_lookup (d : string) (t : gmap string float)
    (level : string) (c : float) :
  ECOSYSTEM_RISK_THRESHOLDS !! d = Some t ->
  (level, c) ∈ Spec.consulted t -> t !! level = Some c.
Proof.
  intros Ht Hin. unfold ECOSYSTEM_RISK_THRESHOLDS in Ht.
  lookup_literal_in Ht;
    unfold Spec.consulted in Hin; simpl in Hin;
    repeat (apply elem_of_cons in Hin as [Hin|Hin]);
    try (by apply elem_of_nil in Hin);
    injection Hin as -> ->; vm_compute; reflexivity.
Qed.

(** The classifier only returns the five severity labels. *)
Lemma classify_label (d : string) (v : float) :
  get_risk_level_by_threshold d v ∈ Spec.severity_order.
Proof.
  unfold get_risk_level_by_threshold, Spec.severity_order. cbv zeta.
  repeat match goal with |- context [ if ?b then _ else _ ] => destruct b end;
    set_solver.
Qed.

Lemma classify_mono (d : string) (v1 v2 : float) :
  Py.lt v1 v2 = true ->
  Spec.severity_rank (get_risk_level_by_threshold d v1)
  <= Spec.severity_rank (get_risk_level_by_threshold d v2).
Proof.
  intros Hlt. unfold get_risk_level_by_threshold. cbv zeta.
  destruct (Py.not_ _); [ done | ].
  generalize (Py.get (Py.get ECOSYSTEM_RISK_THRESHOLDS d ∅) "critical" infinity)
             (Py.get (Py.get ECOSYSTEM_RISK_THRESHOLDS d ∅) "high" infinity)
             (Py.get (Py.get ECOSYSTEM_RISK_THRESHOLDS d ∅) "moderate" infinity)
             (Py.get (Py.get ECOSYSTEM_RISK_THRESHOLDS d ∅) "low" infinity).
  intros c1 c2 c3 c4.
  repeat match goal with
  | |- context [ Py.ge v1 ?c ] =>
      let E := fresh "E" in
      destruct (Py.ge v1 c) eqn:E; [ pose proof (ge_mono c v1 v2 Hlt E) | ]
  end;
  repeat match goal with
  | |- context [ Py.ge v2 ?c ] =>
      let E := fresh "E" in destruct (Py.ge v2 c) eqn:E
  end;
  try congruence; vm_compute; lia.
Qed.

(** On a recognized dimension the four cutoffs the classifier reads are
    entries of the table, and the result is the inclusive scan of them
    from the most severe down. *)
Lemma classify_scan (d : string) (t : gmap string float) (v : float) :
  ECOSYSTEM_RISK_THRESHOLDS !! d = Some t ->
  exists c_critical c_high c_moderate c_low : float,
    t !! "critical" = Some c_critical
    /\ t !! "high" = Some c_high
    /\ t !! "moderate" = Some c_moderate
    /\ t !! "low" = Some c_low
    /\ get_risk_level_by_threshold d v
       = (if Py.ge v c_critical then "critical"
          else if Py.ge v c_high then "high"
          else if Py.ge v c_moderate then "moderate"
          else if Py.ge v c_low then "low"
          else "minimal").
Proof.
  intros Ht. unfold ECOSYSTEM_RISK_THRESHOLDS in Ht.
  lookup_literal_in Ht; eexists _, _, _, _;
    (split; [ reflexivity | ]); (split; [ reflexivity | ]);
    (split; [ reflexivity | ]); (split; [ reflexivity | ]);
    reflexivity.
Qed.

(** C2: on every recognized dimension the classifier compares the value
    with the cutoffs of critical, high, moderate and low, in this order
    and inclusively ([value >= cutoff]), and returns the first tier that
    matches, ["minimal"] when none does.  Hence a value equal to a cutoff
    is classified at that cutoff's tier, and a value below the four
    cutoffs is classified ["minimal"]; for ["habitat_loss"] the values
    0.05, 0.5, 1.0, 2.0, 4.0 and 10.0 are classified minimal, low,
    moderate, high, critical and critical. *)
Theorem cutoff_comparison_inclusive :
  (forall (d : string) (t : gmap string float) (v : float),
     ECOSYSTEM_RISK_THRESHOLDS !! d = Some t ->
     exists c_critical c_high c_moderate c_low : float,
       t !! "critical" = Some c_critical
       /\ t !! "high" = Some c_high
       /\ t !! "moderate" = Some c_moderate
       /\ t !! "low" = Some c_low
       /\ get_risk_level_by_threshold d v
          = (if Py.ge v c_critical then "critical"
             else if Py.ge v c_high then "high"
             else if Py.ge v c_moderate then "moderate"
             else if Py.ge v c_low then "low"
             else "minimal"))
  /\ (forall (d : string) (t : gmap string float) (level : string)
             (c v : float),
        ECOSYSTEM_RISK_THRESHOLDS !! d = Some t ->
        t !! level = Some c ->
        Py.eq v c = true ->
        get_risk_level_by_threshold d v = level)
  /\ (forall (d : string) (t : gmap string float) (v : float),
        ECOSYSTEM_RISK_THRESHOLDS !! d = Some t ->
        (forall level c,
           level ∈ ["critical"; "high"; "moderate"; "low"] ->
           t !! level = Some c -> Py.lt v c = true) ->
        get_risk_level_by_threshold d v = "minimal")
  /\ get_risk_level_by_threshold "habitat_loss" 0.05 = "minimal"
  /\ get_risk_level_by_threshold "habitat_loss" 0.5 = "low"
  /\ get_risk_level_by_threshold "habitat_loss" 1.0 = "moderate"
  /\ get_risk_level_by_threshold "habitat_loss" 2.0 = "high"
  /\ get_risk_level_by_threshold "habitat_loss" 4.0 = "critical"
  /\ get_risk_level_by_threshold "habitat_loss" 10.0 = "critical".
Proof.
  split; [ exact classify_scan | ].
  split; [ | split ].
  - intros d t level c v Ht Hc Heq.
    rewrite (classify_eq_congr d v c Heq).
    unfold ECOSYSTEM_RISK_THRESHOLDS in Ht.
    lookup_literal_in Ht; lookup_literal_in Hc; vm_compute; reflexivity.
  - intros d t v Ht Hbelow.
    destruct (classify_scan d t v Ht)
      as (c1 & c2 & c3 & c4 & H1 & H2 & H3 & H4 & ->).
    rewrite (lt_not_ge c1 v), (lt_not_ge c2 v), (lt_not_ge c3 v),
      (lt_not_ge c4 v); [ reflexivity | .. ].
    + apply (Hbelow "low"); [ | exact H4 ].
      apply (bool_decide_unpack _). vm_compute. exact I.
    + apply (Hbelow "moderate"); [ | exact H3 ].
      apply (bool_decide_unpack _). vm_compute. exact I.
    + apply (Hbelow "high"); [ | exact H2 ].
      apply (bool_decide_unpack _). vm_compute. exact I.
    + apply (Hbelow "critical"); [ | exact H1 ].
      apply (bool_decide_unpack _). vm_compute. exact I.
  - repeat split; vm_compute; reflexivity.
Qed.

Lemma cutoff_comparison_inclusive_witness :
  get_risk_level_by_threshold "habitat_loss" 3.0 = "high"
  /\ get_risk_level_by_threshold "habitat_loss" 0.5 = "low"
  /\ get_risk_level_by_threshold "habitat_loss" 0.3 = "minimal".
Proof.
  destruct cutoff_comparison_inclusive as (Hscan & Hequal & Hbelow & _).
  split; [ | split ].
  - destruct (Hscan "habitat_loss"
                (Py.get ECOSYSTEM_RISK_THRESHOLDS "habitat_loss" ∅)
                3.0%float eq_refl)
      as (c1 & c2 & c3 & c4 & H1 & H2 & H3 & H4 & ->).
    vm_compute in H1, H2, H3, H4.
    injection H1 as <-. injection H2 as <-.
    injection H3 as <-. injection H4 as <-.
    reflexivity.
  - apply (Hequal "habitat_loss"
             (Py.get ECOSYSTEM_RISK_THRESHOLDS "habitat_loss" ∅) "low"
             0.5%float 0.5%float);
      reflexivity.
  - apply (Hbelow "habitat_loss"
             (Py.get ECOSYSTEM_RISK_THRESHOLDS "habitat_loss" ∅)
             0.3%float eq_refl).
    intros level c Hlevel Hc.
    repeat (apply elem_of_cons in Hlevel as [->|Hlevel]);
      [ .. | by apply elem_of_nil in Hlevel ];
      vm_compute in Hc; injection Hc as <-; reflexivity.
Defined.

(** C7: for a fixed dimension the classifier is monotone in its value:
    when [v1 < v2], the level returned for [v2] is at least as severe as
    the level returned for [v1], in the order critical > high > moderate >
    low > minimal; both levels are among these five. *)
Theorem classification_monotone (d : string) (v1 v2 : float) :
  Py.lt v1 v2 = true ->
  get_risk_level_by_threshold d v1 ∈ Spec.severity_order
  /\ get_risk_level_by_threshold d v2 ∈ Spec.severity_order
  /\ Spec.severity_rank (get_risk_level_by_threshold d v1)
     <= Spec.severity_rank (get_risk_level_by_threshold d v2).
Proof.
  intros Hlt. split; [ apply classify_label | ].
  split; [ apply classify_label | ].
  by apply classify_mono.
Qed.

Lemma classification_monotone_witness :
  Py.lt 0.5 2.0 = true
  /\ Spec.severity_rank (get_risk_level_by_threshold "habitat_loss" 0.5) = 1
  /\ Spec.severity_rank (get_risk_level_by_threshold "habitat_loss" 2.0) = 3
  /\ Spec.severity_rank (get_risk_level_by_threshold "habitat_loss" 0.5)
     <= Spec.severity_rank (get_risk_level_by_threshold "habitat_loss" 2.0).
Proof.
  split; [ reflexivity | ].
  split; [ reflexivity | ].
  split; [ reflexivity | ].
  apply (classification_monotone "habitat_loss" 0.5 2.0). reflexivity.
Defined.

(** ** The performance comparison *)

Section PerformanceFacts.
Variable format_fixed : nat -> float -> string.

Lemma performance_zero (l n : float) (m : string) :
  Py.eq n 0 = true ->
  calculate_performance_vs_national format_fixed l n m
  = ([], Py.Return no_comparison).
Proof.
  intros Hn. unfold calculate_performance_vs_national.
  rewrite Hn. reflexivity.
Qed.

Lemma performance_nonzero (l n : float) (m : string) :
  Py.eq n 0 = false ->
  calculate_performance_vs_national format_fixed l n m
  = ([Py.EvTrueDiv l n], Py.Return (comparison format_fixed l n m)).
Proof.
  intros Hn. unfold calculate_performance_vs_national.
  rewrite Hn. unfold Py.eq in Hn.
  unfold Py.truediv, Py.bind, Py.ret. rewrite Hn.
  unfold comparison, Spec.performance_category, Spec.format_delta,
    Spec.category_lower_is_better, Spec.category_higher_is_better,
    Spec.category_other, Spec.lower_is_better, Spec.higher_is_better,
    Py.contains, Py.le, Py.ge, Py.gt.
  cbv zeta.
  destruct (decide (m ∈ ["threat"; "decline"; "transformation"; "loss"]))
    as [Hlow|Hlow];
    [ rewrite (bool_decide_eq_true_2 _ Hlow)
    | rewrite (bool_decide_eq_false_2 _ Hlow);
      destruct (decide (m ∈ ["habitat"; "protection"; "natural"]))
        as [Hhigh|Hhigh];
      [ rewrite (bool_decide_eq_true_2 _ Hhigh)
      | rewrite (bool_decide_eq_false_2 _ Hhigh) ] ];
    repeat match goal with
    | |- context [ if (?a <=? ?b)%float then _ else _ ] =>
        destruct (a <=? b)%float
    | |- context [ if (?a <? ?b)%float then _ else _ ] =>
        destruct (a <? b)%float
    end;
    reflexivity.
Qed.

End PerformanceFacts.

(** ** The catalogues *)

Lemma threat_fallback (code : string) :
  code ∉ ["CR"; "EN"; "VU"; "NT"; "LC"] ->
  get_threat_level_info code
  = list_to_map [
      ("name", VStr "Data Deficient");
      ("color", VStr "#cccccc");
      ("priority", VInt 0);
      ("description", VStr "Classification pending or data deficient");
      ("code", VStr code)].
Proof.
  intros Hcode. repeat (apply not_elem_of_cons in Hcode as [? Hcode]).
  unfold get_threat_level_info, THREAT_LEVELS, Py.get. cbv zeta.
  rewrite !list_to_map_cons, !list_to_map_nil.
  rewrite !(lookup_insert_ne _ _ code) by congruence.
  destruct (decide (code = "")) as [->|Hne].
  - vm_compute. reflexivity.
  - rewrite !(lookup_insert_ne _ _ code) by congruence.
    rewrite !lookup_empty. vm_compute. reflexivity.
Qed.

Lemma protection_fallback (code : string) :
  code ∉ ["WP"; "MP"; "PP"; "NP"] ->
  get_protection_level_info code
  = list_to_map [
      ("name", VStr "Unknown");
      ("color", VStr "#cccccc");
      ("description", VStr "Protection status unknown");
      ("status", VStr "unknown")].
Proof.
  intros Hcode. repeat (apply not_elem_of_cons in Hcode as [? Hcode]).
  unfold get_protection_level_info, Py.get. cbv zeta.
  rewrite !list_to_map_cons, !list_to_map_nil.
  rewrite !(lookup_insert_ne _ _ code) by congruence.
  rewrite lookup_empty. reflexivity.
Qed.

(** C6: an unrecognized dimension or code is answered with the designated
    default and nothing is raised: the classifier returns ["minimal"] on a
    dimension outside the four of the table; [get_threat_level_info] on a
    code outside CR, EN, VU, NT, LC (the empty string included) returns
    the "Data Deficient" entry of the catalogue, completed with the
    fallback description and the code asked for;
    [get_protection_level_info] on a code outside WP, MP, PP, NP returns
    the record named "Unknown" with status "unknown"; and the performance
    comparison, the one function that uses an operator able to raise,
    returns normally on every input. *)
Theorem unrecognized_input_gets_default :
  (forall (d : string) (v : float),
     d ∉ Spec.dimensions -> get_risk_level_by_threshold d v = "minimal")
  /\ (forall code : string,
        code ∉ ["CR"; "EN"; "VU"; "NT"; "LC"] ->
        get_threat_level_info code
        = list_to_map [
            ("name", VStr "Data Deficient");
            ("color", VStr "#cccccc");
            ("priority", VInt 0);
            ("description",
             VStr "Classification pending or data deficient");
            ("code", VStr code)])
  /\ THREAT_LEVELS !! ""
     = Some (list_to_map [("name", VStr "Data Deficient");
                          ("color", VStr "#cccccc"); ("priority", VInt 0)])
  /\ (forall code : string,
        code ∉ ["WP"; "MP"; "PP"; "NP"] ->
        get_protection_level_info code
        = list_to_map [
            ("name", VStr "Unknown");
            ("color", VStr "#cccccc");
            ("description", VStr "Protection status unknown");
            ("status", VStr "unknown")])
  /\ (forall (format_fixed : nat -> float -> string) (l n : float)
             (m : string),
        exists log r,
          calculate_performance_vs_national format_fixed l n m
          = (log, Py.Return r)).
Proof.
  split; [ exact classify_unrecognized | ].
  split; [ exact threat_fallback | ].
  split; [ vm_compute; reflexivity | ].
  split; [ exact protection_fallback | ].
  intros format_fixed l n m. destruct (Py.eq n 0) eqn:Hn.
  - eexists _, _. by apply performance_zero.
  - eexists _, _. by apply performance_nonzero.
Qed.

Lemma unrecognized_input_gets_default_witness :
  get_risk_level_by_threshold "soil_loss" 99.0 = "minimal"
  /\ get_threat_level_info "EX" !! "name" = Some (VStr "Data Deficient")
  /\ get_protection_level_info "ZZ" !! "status" = Some (VStr "unknown").
Proof.
  destruct unrecognized_input_gets_default as (Hd & Ht & _ & Hp & _).
  split; [ | split ].
  - apply Hd. apply (bool_decide_unpack _). vm_compute. exact I.
  - rewrite Ht by (apply (bool_decide_unpack _); vm_compute; exact I).
    vm_compute. reflexivity.
  - rewrite Hp by (apply (bool_decide_unpack _); vm_compute; exact I).
    vm_compute. reflexivity.
Defined.

Lemma thresholds_decreasing (d : string) (t : gmap string float) :
  ECOSYSTEM_RISK_THRESHOLDS !! d = Some t ->
  exists cs : list float,
    Spec.cutoffs t = map Some cs
    /\ Spec.strictly_decreasing cs = true
    /\ map (fun p => Some p.2) (Spec.consulted t) = take 4 (Spec.cutoffs t).
Proof.
  intros Ht. unfold ECOSYSTEM_RISK_THRESHOLDS in Ht.
  lookup_literal_in Ht.
  - exists [4.0; 2.0; 1.0; 0.5; 0.1]%float. repeat split.
  - exists [0.4; 0.2; 0.1; 0.05; 0.01]%float. repeat split.
  - exists [50.0; 25.0; 15.0; 10.0; 5.0]%float. repeat split.
  - exists [80.0; 60.0; 40.0; 20.0; 10.0]%float. repeat split.
Qed.

(** C9: in the threshold table every dimension's cutoffs are strictly
    decreasing down the severity order, with the stated values for the
    four dimensions; the classifier reads the cutoffs of critical, high,
    moderate and low in that order with an inclusive comparison and
    returns the first that matches. *)
Theorem thresholds_decreasing_first_match :
  dom ECOSYSTEM_RISK_THRESHOLDS = list_to_set Spec.dimensions
  /\ Spec.cutoffs (Py.get ECOSYSTEM_RISK_THRESHOLDS "habitat_loss" ∅)
     = map Some [4.0; 2.0; 1.0; 0.5; 0.1]%float
  /\ Spec.cutoffs (Py.get ECOSYSTEM_RISK_THRESHOLDS "annual_decline" ∅)
     = map Some [0.4; 0.2; 0.1; 0.05; 0.01]%float
  /\ Spec.cutoffs (Py.get ECOSYSTEM_RISK_THRESHOLDS "transformation" ∅)
     = map Some [50.0; 25.0; 15.0; 10.0; 5.0]%float
  /\ Spec.cutoffs (Py.get ECOSYSTEM_RISK_THRESHOLDS "protection_gap" ∅)
     = map Some [80.0; 60.0; 40.0; 20.0; 10.0]%float
  /\ (forall (d : string) (t : gmap string float),
        ECOSYSTEM_RISK_THRESHOLDS !! d = Some t ->
        exists cs : list float,
          Spec.cutoffs t = map Some cs
          /\ Spec.strictly_decreasing cs = true
          /\ map (fun p => Some p.2) (Spec.consulted t)
             = take 4 (Spec.cutoffs t))
  /\ (forall (d : string) (t : gmap string float) (v : float),
        ECOSYSTEM_RISK_THRESHOLDS !! d = Some t ->
        get_risk_level_by_threshold d v
        = Spec.first_match (Spec.consulted t) v).
Proof.
  split; [ vm_compute; reflexivity | ].
  do 4 (split; [ vm_compute; reflexivity | ]).
  split; [ exact thresholds_decreasing | exact classify_first_match ].
Qed.

Lemma thresholds_decreasing_first_match_witness :
  Spec.strictly_decreasing [50.0; 25.0; 15.0; 10.0; 5.0]%float = true
  /\ get_risk_level_by_threshold "transformation" 30.0 = "high".
Proof.
  destruct thresholds_decreasing_first_match
    as (_ & _ & _ & _ & _ & _ & Hscan).
  split; [ reflexivity | ].
  rewrite (Hscan "transformation"
             (Py.get ECOSYSTEM_RISK_THRESHOLDS "transformation" ∅)
             30.0%float);
    vm_compute; reflexivity.
Defined.

Lemma metric_sets_disjoint (m : string) :
  m ∈ Spec.lower_is_better -> m ∈ Spec.higher_is_better -> False.
Proof.
  unfold Spec.lower_is_better, Spec.higher_is_better. intros Hl Hh.
  repeat (apply elem_of_cons in Hh as [->|Hh]);
    try (by apply elem_of_nil in Hh);
    repeat (apply elem_of_cons in Hl as [Hl|Hl]);
    try (by apply elem_of_nil in Hl); discriminate.
Qed.

(** Reads a literal key of a dictionary literal. *)
Ltac lookup_key :=
  rewrite ?list_to_map_cons;
  repeat first [ rewrite lookup_insert_eq
               | rewrite lookup_insert_ne by discriminate ].

Lemma comparison_category (format_fixed : nat -> float -> string)
    (l n : float) (m : string) :
  comparison format_fixed l n m !! "category"
  = Some (VStr (Spec.performance_category m (l / n))).
Proof. unfold comparison. cbv zeta. lookup_key. reflexivity. Qed.

(** C4: when the national value is not zero, the ratio is local/national
    and the category follows the direction of the metric: for threat,
    decline, transformation and loss a ratio of at most 0.7 is Much
    Better, else at most 0.9 Better, else at most 1.1 Similar, else at
    most 1.3 Worse, else Much Worse; for habitat, protection and natural
    a ratio of at least 1.3 is Much Better, else at least 1.1 Better, else
    at least 0.9 Similar, else at least 0.7 Worse, else Much Worse; for
    any other metric the distance of the ratio from 1 decides, at most
    0.1 Similar, else at most 0.3 Moderate Difference, else Large
    Difference.  Comparing 8 with 10 for "threat" and 12 with 10 for
    "habitat" both give "Better". *)
Theorem performance_category_by_direction :
  (forall (format_fixed : nat -> float -> string) (l n : float)
          (m : string),
     Py.eq n 0 = false ->
     exists r : gmap string pyobj,
       calculate_performance_vs_national format_fixed l n m
       = ([Py.EvTrueDiv l n], Py.Return r)
       /\ r !! "performance_ratio" = Some (VFloat (l / n))
       /\ (m ∈ Spec.lower_is_better ->
           r !! "category"
           = Some (VStr (Spec.category_lower_is_better (l / n))))
       /\ (m ∈ Spec.higher_is_better ->
           r !! "category"
           = Some (VStr (Spec.category_higher_is_better (l / n))))
       /\ (m ∉ Spec.lower_is_better -> m ∉ Spec.higher_is_better ->
           r !! "category" = Some (VStr (Spec.category_other (l / n)))))
  /\ (forall format_fixed : nat -> float -> string,
        exists r : gmap string pyobj,
          calculate_performance_vs_national format_fixed 8 10 "threat"
          = ([Py.EvTrueDiv 8 10], Py.Return r)
          /\ r !! "category" = Some (VStr "Better"))
  /\ (forall format_fixed : nat -> float -> string,
        exists r : gmap string pyobj,
          calculate_performance_vs_national format_fixed 12 10 "habitat"
          = ([Py.EvTrueDiv 12 10], Py.Return r)
          /\ r !! "category" = Some (VStr "Better")).
Proof.
  split; [ | split ].
  - intros format_fixed l n m Hn.
    exists (comparison format_fixed l n m).
    split; [ by apply performance_nonzero | ].
    split; [ unfold comparison; cbv zeta; lookup_key; reflexivity | ].
    rewrite comparison_category. unfold Spec.performance_category.
    split; [ | split ].
    + intros Hl. by rewrite decide_True.
    + intros Hh.
      rewrite decide_False by (intros Hl; exact (metric_sets_disjoint m Hl Hh)).
      by rewrite decide_True.
    + intros Hl Hh. by rewrite !decide_False.
  - intros format_fixed. eexists. split.
    + by apply performance_nonzero.
    + rewrite comparison_category. vm_compute. reflexivity.
  - intros format_fixed. eexists. split.
    + by apply performance_nonzero.
    + rewrite comparison_category. vm_compute. reflexivity.
Qed.

Lemma performance_category_by_direction_witness :
  Py.eq 10 0 = false
  /\ exists r : gmap string pyobj,
       calculate_performance_vs_national (fun _ _ => "") 13 10 "loss"
       = ([Py.EvTrueDiv 13 10], Py.Return r)
       /\ r !! "category" = Some (VStr "Worse").
Proof.
  split; [ reflexivity | ].
  destruct (proj1 performance_category_by_direction
              (fun _ _ => "") 13%float 10%float "loss" eq_refl)
    as (r & Hr & _ & Hlow & _).
  exists r. split; [ exact Hr | ].
  rewrite Hlow; [ vm_compute; reflexivity | ].
  apply (bool_decide_unpack _). vm_compute. exact I.
Defined.

(** C5: when the national value compares equal to zero the function
    returns the neutral record (category "No Comparison", delta 0, ratio
    1.0) and no division is evaluated; on every input it returns
    normally, and every division it evaluates has a divisor that is not
    zero. *)
Theorem zero_national_value_is_guarded :
  (forall (format_fixed : nat -> float -> string) (l n : float)
          (m : string),
     Py.eq n 0 = true ->
     exists r : gmap string pyobj,
       calculate_performance_vs_national format_fixed l n m
       = ([], Py.Return r)
       /\ r !! "category" = Some (VStr "No Comparison")
       /\ r !! "delta" = Some (VInt 0)
       /\ r !! "performance_ratio" = Some (VFloat 1.0))
  /\ (forall (format_fixed : nat -> float -> string) (l n : float)
             (m : string),
        exists (log : list Py.event) (r : gmap string pyobj),
          calculate_performance_vs_national format_fixed l n m
          = (log, Py.Return r)
          /\ forall x y, Py.EvTrueDiv x y ∈ log -> Py.eq y 0 = false)
  /\ (forall format_fixed : nat -> float -> string,
        exists r : gmap string pyobj,
          calculate_performance_vs_national format_fixed 10 0 "threat"
          = ([], Py.Return r)
          /\ r !! "category" = Some (VStr "No Comparison")
          /\ r !! "delta" = Some (VInt 0)).
Proof.
  split; [ | split ].
  - intros format_fixed l n m Hn. exists no_comparison.
    split; [ by apply performance_zero | ].
    repeat split.
  - intros format_fixed l n m. destruct (Py.eq n 0) eqn:Hn.
    + exists [], no_comparison.
      split; [ by apply performance_zero | ].
      intros x y Hin. by apply elem_of_nil in Hin.
    + exists [Py.EvTrueDiv l n], (comparison format_fixed l n m).
      split; [ by apply performance_nonzero | ].
      intros x y Hin. apply list_elem_of_singleton in Hin.
      by injection Hin as -> ->.
  - intros format_fixed. exists no_comparison.
    split; [ by apply performance_zero | ].
    repeat split.
Qed.

Lemma zero_national_value_is_guarded_witness :
  Py.eq (-0) 0 = true
  /\ exists r : gmap string pyobj,
       calculate_performance_vs_national (fun _ _ => "") 10 (-0) "habitat"
       = ([], Py.Return r)
       /\ r !! "category" = Some (VStr "No Comparison").
Proof.
  split; [ reflexivity | ].
  destruct (proj1 zero_national_value_is_guarded
              (fun _ _ => "") 10%float (-0)%float "habitat" eq_refl)
    as (r & Hr & Hcat & _).
  exists r. split; [ exact Hr | exact Hcat ].
Defined.





(** ** The urgency assessment *)

Lemma iucn_urgency_get (t : string) :
  Py.get (list_to_map [("CR", 4); ("EN", 3); ("VU", 2); ("NT", 1);
                       ("LC", 0)]%Z) t 0%Z
  = Spec.urgency_threat t.
Proof.
  unfold Py.get, Spec.urgency_threat.
  lookup_literal.
  repeat case_decide; try congruence; reflexivity.
Qed.

Lemma protection_urgency_get (c : string) :
  Py.get (list_to_map [("NP", 2); ("PP", 1); ("MP", 0); ("WP", -1)]%Z) c 0%Z
  = Spec.urgency_protection c.
Proof.
  unfold Py.get, Spec.urgency_protection.
  lookup_literal.
  repeat case_decide; try congruence; reflexivity.
Qed.

Lemma urgency_closed_form (t : string) (d n : float) (c : string) :
  categorize_ecosystem_urgency t d n c
  = urgency_record (Spec.urgency_score t d n c).
Proof.
  unfold categorize_ecosystem_urgency. cbv zeta.
  rewrite iucn_urgency_get, protection_urgency_get.
  match goal with
  | |- context [ (?e >=? 8)%Z ] =>
      replace e with (Spec.urgency_score t d n c)
  end.
  - unfold urgency_record, Spec.urgency_category. cbv zeta.
    rewrite !Z.geb_leb.
    repeat match goal with
    | |- context [ (?a <=? ?b)%Z ] => destruct (a <=? b)%Z
    end; reflexivity.
  - unfold Spec.urgency_score, Spec.urgency_decline, Spec.urgency_habitat,
      Py.gt, Py.lt.
    repeat match goal with
    | |- context [ if (?a <? ?b)%float then _ else _ ] =>
        destruct (a <? b)%float
    end; lia.
Qed.

Lemma urgency_score_range (t : string) (d n : float) (c : string) :
  (-1 <= Spec.urgency_score t d n c <= 12)%Z.
Proof.
  unfold Spec.urgency_score, Spec.urgency_threat, Spec.urgency_decline,
    Spec.urgency_habitat, Spec.urgency_protection.
  repeat case_decide;
    repeat match goal with
    | |- context [ if (?a <? ?b)%float then _ else _ ] =>
        destruct (a <? b)%float
    end; lia.
Qed.

Lemma urgency_actions_length (category : string) :
  2 <= length (urgency_actions category) <= 3.
Proof.
  unfold urgency_actions. repeat case_decide; simpl; lia.
Qed.

(** C3: the urgency score is the sum of the four contributions (threat
    CR 4, EN 3, VU 2, NT 1, otherwise 0; decline above 0.3 gives 3, above
    0.1 gives 2, above 0.05 gives 1, otherwise 0; habitat below 30 gives
    3, below 50 gives 2, below 70 gives 1, otherwise 0; protection NP 2,
    PP 1, MP 0, WP -1, otherwise 0), so it lies between -1 and 12; the
    category is Emergency from 8, Critical from 6, High from 4, Moderate
    from 2 and Low below, and the timeframe and the two or three
    recommended actions are those fixed for the category.  The two
    worked examples give -1 with "Low" and 12 with "Emergency". *)
Theorem urgency_score_and_category :
  (forall (t : string) (d n : float) (c : string),
     categorize_ecosystem_urgency t d n c !! "urgency_score"
     = Some (VInt (Spec.urgency_threat t + Spec.urgency_decline d
                   + Spec.urgency_habitat n + Spec.urgency_protection c))
     /\ (-1 <= Spec.urgency_score t d n c <= 12)%Z
     /\ categorize_ecosystem_urgency t d n c !! "category"
        = Some (VStr (Spec.urgency_category (Spec.urgency_score t d n c)))
     /\ categorize_ecosystem_urgency t d n c !! "timeframe"
        = Some (VStr (urgency_timeframe
                        (Spec.urgency_category (Spec.urgency_score t d n c))))
     /\ categorize_ecosystem_urgency t d n c !! "recommended_actions"
        = Some (VList (urgency_actions
                         (Spec.urgency_category (Spec.urgency_score t d n c))))
     /\ 2 <= length (urgency_actions
                       (Spec.urgency_category (Spec.urgency_score t d n c)))
        <= 3)
  /\ categorize_ecosystem_urgency "LC" 0 80 "WP" !! "urgency_score"
     = Some (VInt (-1))
  /\ categorize_ecosystem_urgency "LC" 0 80 "WP" !! "category"
     = Some (VStr "Low")
  /\ categorize_ecosystem_urgency "CR" 0.35 20 "NP" !! "urgency_score"
     = Some (VInt 12)
  /\ categorize_ecosystem_urgency "CR" 0.35 20 "NP" !! "category"
     = Some (VStr "Emergency").
Proof.
  split.
  - intros t d n c. rewrite urgency_closed_form.
    unfold urgency_record. cbv zeta.
    split; [ lookup_key; reflexivity | ].
    split; [ apply urgency_score_range | ].
    split; [ lookup_key; reflexivity | ].
    split; [ lookup_key; reflexivity | ].
    split; [ lookup_key; reflexivity | ].
    apply urgency_actions_length.
  - repeat split; vm_compute; reflexivity.
Qed.

(** ** Further facts on floating-point order *)

Section SpecFloatMore.
Local Open Scope Z_scope.

Ltac sf_cases :=
  repeat match goal with
  | x : spec_float |- _ => destruct x
  | b : bool |- _ => destruct b
  end;
  simpl; try first [ reflexivity | discriminate ].

Ltac cmp_cases :=
  repeat match goal with
  | |- context [ (?a ?= ?b)%Z ] =>
      destruct (Z.compare_spec a b); simpl;
      try first [ reflexivity | discriminate | lia ]
  | H : context [ (?a ?= ?b)%Z ] |- _ =>
      destruct (Z.compare_spec a b); simpl in H;
      try first [ discriminate | lia ]
  | |- context [ Pos.compare_cont Eq ?a ?b ] =>
      change (Pos.compare_cont Eq a b) with (Pos.compare a b);
      destruct (Pos.compare_spec a b); simpl;
      try first [ reflexivity | discriminate | lia ]
  | H : context [ Pos.compare_cont Eq ?a ?b ] |- _ =>
      change (Pos.compare_cont Eq a b) with (Pos.compare a b) in H;
      destruct (Pos.compare_spec a b); simpl in H;
      try first [ discriminate | lia ]
  end.

Lemma SFltb_trans (a b c : spec_float) :
  SFltb a b = true -> SFltb b c = true -> SFltb a c = true.
Proof.
  unfold SFltb, SFcompare.
  sf_cases; intros H1 H2; cmp_cases.
Qed.

Lemma SFleb_trans (a b c : spec_float) :
  SFleb a b = true -> SFleb b c = true -> SFleb a c = true.
Proof.
  unfold SFleb, SFcompare.
  sf_cases; intros H1 H2; cmp_cases.
Qed.

Lemma SFeqb_irrefl_nan (a : spec_float) :
  SFeqb a a = false -> a = S754_nan.
Proof.
  unfold SFeqb, SFcompare.
  destruct a as [s|s| |s m e]; try reflexivity; destruct s;
    try discriminate;
    rewrite Z.compare_refl;
    change (Pos.compare_cont Eq m m) with (Pos.compare m m);
    rewrite Pos.compare_refl; discriminate.
Qed.

Lemma SFcompare_nan_r (a : spec_float) : SFcompare a S754_nan = None.
Proof. by destruct a. Qed.

End SpecFloatMore.

Lemma lt_trans (a b c : float) :
  Py.lt a b = true -> Py.lt b c = true -> Py.lt a c = true.
Proof. unfold Py.lt. rewrite !ltb_spec. apply SFltb_trans. Qed.

Lemma le_trans (a b c : float) :
  Py.le a b = true -> Py.le b c = true -> Py.le a c = true.
Proof. unfold Py.le. rewrite !leb_spec. apply SFleb_trans. Qed.

(** A value that differs from itself is NaN, and every comparison with
    it is false. *)
Lemma is_nan_spec (x : float) : is_nan x = true -> Prim2SF x = S754_nan.
Proof.
  unfold is_nan, Py.eq. rewrite FloatAxioms.eqb_spec. intros H.
  apply SFeqb_irrefl_nan. by destruct (SFeqb _ _).
Qed.

Lemma nan_compare (x c : float) :
  is_nan x = true ->
  Py.ge x c = false /\ Py.gt x c = false /\ Py.le x c = false
  /\ Py.lt x c = false.
Proof.
  intros Hx. apply is_nan_spec in Hx.
  unfold Py.ge, Py.gt, Py.le, Py.lt. rewrite !leb_spec, !ltb_spec, Hx.
  unfold SFleb, SFltb. rewrite SFcompare_nan_r. by simpl.
Qed.

Lemma nan_div (l n : float) :
  is_nan l = true \/ is_nan n = true -> is_nan (l / n) = true.
Proof.
  intros H.
  assert (Hq : Prim2SF (l / n) = S754_nan).
  { rewrite div_spec. unfold SF64div.
    destruct H as [H|H]; apply is_nan_spec in H; rewrite H.
    - reflexivity.
    - by destruct (Prim2SF l). }
  unfold is_nan, Py.eq. rewrite FloatAxioms.eqb_spec, Hq. reflexivity.
Qed.

Lemma nan_abs_sub (x c : float) :
  is_nan x = true -> is_nan (abs (x - c)) = true.
Proof.
  intros H. apply is_nan_spec in H. unfold is_nan, Py.eq.
  rewrite FloatAxioms.eqb_spec, abs_spec, sub_spec, H. reflexivity.
Qed.

(** ** The color of a classified value *)

(** Splits a membership in a literal list into its cases. *)
Ltac member_cases H :=
  repeat (apply elem_of_cons in H as [H|H]); [ .. | by apply elem_of_nil in H ].

(** X1: [get_risk_color_by_threshold] never returns its fallback color:
    the level it looks up is always a key of [RISK_COLORS], so the color
    is one of the five severity colors and differs from "#cccccc". *)
Theorem risk_color_never_fallback (risk_type : string) (v : float) :
  RISK_COLORS !! get_risk_level_by_threshold risk_type v
  = Some (get_risk_color_by_threshold risk_type v)
  /\ get_risk_color_by_threshold risk_type v
     ∈ ["#d73027"; "#f46d43"; "#fdae61"; "#fee08b"; "#abdda4"]
  /\ get_risk_color_by_threshold risk_type v <> "#cccccc".
Proof.
  pose proof (classify_label risk_type v) as Hlevel.
  unfold get_risk_color_by_threshold. cbv zeta.
  unfold Spec.severity_order in Hlevel.
  member_cases Hlevel; rewrite Hlevel; vm_compute;
    (split; [ reflexivity | split; [ set_solver | discriminate ] ]).
Qed.

(** X2: the color tells the level: two classified values have the same
    color exactly when they have the same level, whatever the dimensions. *)
Theorem risk_color_determines_level (d1 d2 : string) (v1 v2 : float) :
  get_risk_color_by_threshold d1 v1 = get_risk_color_by_threshold d2 v2
  <-> get_risk_level_by_threshold d1 v1 = get_risk_level_by_threshold d2 v2.
Proof.
  pose proof (classify_label d1 v1) as H1.
  pose proof (classify_label d2 v2) as H2.
  unfold get_risk_color_by_threshold. cbv zeta.
  unfold Spec.severity_order in H1, H2.
  member_cases H1; member_cases H2; rewrite H1, H2; vm_compute;
    split; intros H; first [ reflexivity | discriminate H ].
Qed.

(** X3: a NaN value (a missing measurement) is classified ["minimal"] on
    every dimension, recognized or not, and gets the color of minimal. *)
Theorem nan_is_classified_minimal (risk_type : string) (v : float) :
  is_nan v = true ->
  get_risk_level_by_threshold risk_type v = "minimal"
  /\ get_risk_color_by_threshold risk_type v = "#abdda4".
Proof.
  intros Hnan.
  assert (Hlevel : get_risk_level_by_threshold risk_type v = "minimal").
  { unfold get_risk_level_by_threshold. cbv zeta.
    destruct (Py.not_ _); [ reflexivity | ].
    by rewrite !(proj1 (nan_compare v _ Hnan)). }
  split; [ exact Hlevel | ].
  unfold get_risk_color_by_threshold. cbv zeta. rewrite Hlevel.
  reflexivity.
Qed.

Lemma nan_is_classified_minimal_witness :
  is_nan nan = true
  /\ get_risk_level_by_threshold "transformation" nan = "minimal".
Proof.
  split; [ reflexivity | ].
  apply (nan_is_classified_minimal "transformation" nan). reflexivity.
Defined.

(** X4: a NaN indicator contributes nothing to a score: the composite
    score with a NaN decline (or transformation) equals the score with
    that input at 0, and the urgency record with a NaN decline (or natural
    habitat) equals the record with a decline of 0 (or a habitat of 100). *)
Theorem nan_indicator_scores_nothing (t c : string) (d n p : float) :
  (is_nan d = true ->
   calculate_composite_risk_score t d p = calculate_composite_risk_score t 0 p
   /\ categorize_ecosystem_urgency t d n c
      = categorize_ecosystem_urgency t 0 n c)
  /\ (is_nan p = true ->
      calculate_composite_risk_score t d p
      = calculate_composite_risk_score t d 0)
  /\ (is_nan n = true ->
      categorize_ecosystem_urgency t d n c
      = categorize_ecosystem_urgency t d 100 c).
Proof.
  split; [ | split ].
  - intros Hnan. split.
    + rewrite !composite_score_sum. f_equal. f_equal.
      unfold Spec.decline_score.
      pose proof (nan_compare d) as Hcmp. unfold Py.gt in Hcmp.
      by rewrite !(proj1 (proj2 (Hcmp _ Hnan))).
    + rewrite !urgency_closed_form. f_equal.
      unfold Spec.urgency_score. f_equal. f_equal. f_equal.
      unfold Spec.urgency_decline.
      pose proof (nan_compare d) as Hcmp. unfold Py.gt in Hcmp.
      by rewrite !(proj1 (proj2 (Hcmp _ Hnan))).
  - intros Hnan. rewrite !composite_score_sum. f_equal.
    unfold Spec.transformation_score.
    pose proof (nan_compare p) as Hcmp. unfold Py.gt in Hcmp.
    by rewrite !(proj1 (proj2 (Hcmp _ Hnan))).
  - intros Hnan. rewrite !urgency_closed_form. f_equal.
    unfold Spec.urgency_score. f_equal. f_equal.
    unfold Spec.urgency_habitat.
    pose proof (nan_compare n) as Hcmp. unfold Py.lt in Hcmp.
    by rewrite !(proj2 (proj2 (proj2 (Hcmp _ Hnan)))).
Qed.

Lemma nan_indicator_scores_nothing_witness :
  is_nan nan = true
  /\ calculate_composite_risk_score "EN" nan 60 = 55%Z
  /\ categorize_ecosystem_urgency "EN" 0.5 nan "NP" !! "urgency_score"
     = Some (VInt 8).
Proof.
  split; [ reflexivity | ].
  destruct (nan_indicator_scores_nothing "EN" "NP" nan nan 60)
    as ((Hd & _) & _).
  { reflexivity. }
  destruct (nan_indicator_scores_nothing "EN" "NP" 0.5 nan 0)
    as (_ & _ & Hn).
  split.
  - rewrite Hd. reflexivity.
  - rewrite Hn by reflexivity. reflexivity.
Defined.

(** ** The catalogues on every code *)

Lemma unknown_threat_scores (code : string) :
  code ∉ ["CR"; "EN"; "VU"; "NT"; "LC"] ->
  Spec.threat_score code = 0%Z /\ Spec.urgency_threat code = 0%Z.
Proof.
  intros Hcode. repeat (apply not_elem_of_cons in Hcode as [? Hcode]).
  unfold Spec.threat_score, Spec.urgency_threat.
  by rewrite !decide_False by assumption.
Qed.

(** X5: the record of [get_threat_level_info] has the same five keys for
    every code, so a caller can always read its name and color; its code
    entry is the code asked for; and its name is "Data Deficient" exactly
    when the code is none of CR, EN, VU, NT, LC. *)
Theorem threat_info_shape (code : string) :
  dom (get_threat_level_info code)
  = list_to_set ["name"; "color"; "priority"; "description"; "code"]
  /\ get_threat_level_info code !! "code" = Some (VStr code)
  /\ (get_threat_level_info code !! "name" = Some (VStr "Data Deficient")
      <-> code ∉ ["CR"; "EN"; "VU"; "NT"; "LC"]).
Proof.
  destruct (decide (code ∈ ["CR"; "EN"; "VU"; "NT"; "LC"])) as [Hin|Hout].
  - assert (Hknown := Hin).
    member_cases Hin; subst code;
      (split; [ reflexivity | ]);
      (split; [ reflexivity | ]);
      (split; [ intros Hname; vm_compute in Hname; discriminate Hname
              | intros Hout; by destruct Hout ]).
  - rewrite (threat_fallback code Hout).
    split; [ by rewrite dom_list_to_map_L | ].
    split; [ lookup_key; reflexivity | ].
    split; [ done | intros _; lookup_key; reflexivity ].
Qed.

(** Settles a closed decidable proposition by evaluation. *)
Ltac decide_closed := apply (bool_decide_unpack _); vm_compute; exact I.

(** X6: the record of [get_protection_level_info] has the same four keys
    for every code; its name is "Unknown" exactly when the code is none of
    WP, MP, PP, NP; its status is one of success, moderate, warning,
    critical, unknown, and it is critical or warning exactly for NP and
    PP. *)
Theorem protection_info_shape (code : string) :
  dom (get_protection_level_info code)
  = list_to_set ["name"; "color"; "description"; "status"]
  /\ (get_protection_level_info code !! "name" = Some (VStr "Unknown")
      <-> code ∉ ["WP"; "MP"; "PP"; "NP"])
  /\ exists status : string,
       get_protection_level_info code !! "status" = Some (VStr status)
       /\ status ∈ ["success"; "moderate"; "warning"; "critical"; "unknown"]
       /\ (status ∈ ["critical"; "warning"] <-> code ∈ ["NP"; "PP"]).
Proof.
  destruct (decide (code ∈ ["WP"; "MP"; "PP"; "NP"])) as [Hin|Hout].
  - assert (Hknown := Hin).
    member_cases Hin; subst code;
      (split; [ reflexivity | ]);
      (split; [ split; [ intros Hname; vm_compute in Hname;
                         discriminate Hname
                       | intros Hout; by destruct Hout ] | ]);
      eexists; (split; [ reflexivity | ]);
      split; decide_closed.
  - rewrite (protection_fallback code Hout).
    split; [ by rewrite dom_list_to_map_L | ].
    split; [ split; [ done | intros _; lookup_key; reflexivity ] | ].
    exists "unknown". split; [ lookup_key; reflexivity | ].
    split; [ decide_closed | ].
    apply not_elem_of_cons in Hout as [_ Hout].
    apply not_elem_of_cons in Hout as [_ Hout].
    split; [ intros H; member_cases H; discriminate H | ].
    intros H. exfalso. apply Hout.
    member_cases H; subst code; decide_closed.
Qed.

(** X7: the description [get_threat_level_info] stores is the one
    [get_threat_description] of the overview page returns, for every
    code: the two copies of the description table agree. *)
Theorem threat_descriptions_agree (code : string) :
  get_threat_level_info code !! "description"
  = Some (VStr (Overview.get_threat_description code)).
Proof.
  unfold get_threat_level_info, Overview.get_threat_description. cbv zeta.
  rewrite lookup_insert_ne by discriminate.
  by rewrite lookup_insert_eq.
Qed.

Lemma threat_priority_cases (code : string) :
  exists priority : Z,
    get_threat_level_info code !! "priority" = Some (VInt priority)
    /\ (priority, Spec.threat_score code, Spec.urgency_threat code)
       ∈ [(5, 50, 4); (4, 30, 3); (3, 15, 2); (2, 5, 1); (1, 0, 0);
          (0, 0, 0)]%Z.
Proof.
  destruct (decide (code ∈ ["CR"; "EN"; "VU"; "NT"; "LC"])) as [Hin|Hout].
  - member_cases Hin; subst code; eexists;
      (split; [ reflexivity | ]); vm_compute; set_solver.
  - exists 0%Z. rewrite (threat_fallback code Hout).
    destruct (unknown_threat_scores code Hout) as [-> ->].
    split; [ lookup_key; reflexivity | set_solver ].
Qed.

(** X8: the three threat tables are ordered alike: when the catalogue
    gives code [c1] a priority no higher than that of [c2], neither the
    composite score nor the urgency score of [c1] exceeds that of [c2] on
    the same other inputs (unknown codes count as priority 0). *)
Theorem threat_priority_orders_scores
    (c1 c2 : string) (p1 p2 : Z) (d p n : float) (c : string) :
  get_threat_level_info c1 !! "priority" = Some (VInt p1) ->
  get_threat_level_info c2 !! "priority" = Some (VInt p2) ->
  (p1 <= p2)%Z ->
  (calculate_composite_risk_score c1 d p
   <= calculate_composite_risk_score c2 d p)%Z
  /\ exists s1 s2 : Z,
       categorize_ecosystem_urgency c1 d n c !! "urgency_score"
       = Some (VInt s1)
       /\ categorize_ecosystem_urgency c2 d n c !! "urgency_score"
          = Some (VInt s2)
       /\ (s1 <= s2)%Z.
Proof.
  intros H1 H2 Hle.
  destruct (threat_priority_cases c1) as (q1 & Hq1 & Hc1).
  destruct (threat_priority_cases c2) as (q2 & Hq2 & Hc2).
  assert (q1 = p1) as -> by congruence.
  assert (q2 = p2) as -> by congruence.
  rewrite !composite_score_sum, !urgency_closed_form.
  unfold urgency_record, Spec.urgency_score. cbv zeta.
  assert (Spec.threat_score c1 <= Spec.threat_score c2
          /\ Spec.urgency_threat c1 <= Spec.urgency_threat c2)%Z as [Ht Hu].
  { member_cases Hc1; member_cases Hc2;
      injection Hc1 as -> -> ->; injection Hc2 as -> -> ->; lia. }
  split; [ lia | ].
  eexists _, _. split; [ lookup_key; reflexivity | ].
  split; [ lookup_key; reflexivity | lia ].
Qed.

Lemma threat_priority_orders_scores_witness :
  (calculate_composite_risk_score "VU" 0.25 30
   <= calculate_composite_risk_score "EN" 0.25 30)%Z.
Proof.
  apply (threat_priority_orders_scores "VU" "EN" 3 4 0.25 30 60 "PP");
    [ reflexivity | reflexivity | lia ].
Defined.

(** ** Monotonicity of the scores *)

Lemma gt_mono (k d1 d2 : float) :
  Py.lt d1 d2 = true -> (k <? d1)%float = true -> (k <? d2)%float = true.
Proof. intros Hlt Hk. exact (lt_trans k d1 d2 Hk Hlt). Qed.

Lemma lt_mono (k n1 n2 : float) :
  Py.lt n1 n2 = true -> (n2 <? k)%float = true -> (n1 <? k)%float = true.
Proof. intros Hlt Hk. exact (lt_trans n1 n2 k Hlt Hk). Qed.

(** Compares two chains of [k <? x] tests on [x1] and [x2], given a rule
    that carries a passed test from [x1] to [x2]. *)
Ltac band_cases x1 x2 rule :=
  repeat match goal with
  | |- context [ (?k <? x1)%float ] =>
      let E := fresh "E" in
      destruct (k <? x1)%float eqn:E; [ rewrite (rule k E) | ]
  end;
  repeat match goal with
  | |- context [ (?k <? x2)%float ] => destruct (k <? x2)%float
  end;
  lia.

Ltac band_cases_below x1 x2 rule :=
  repeat match goal with
  | |- context [ (x2 <? ?k)%float ] =>
      let E := fresh "E" in
      destruct (x2 <? k)%float eqn:E; [ rewrite (rule k E) | ]
  end;
  repeat match goal with
  | |- context [ (x1 <? ?k)%float ] => destruct (x1 <? k)%float
  end;
  lia.

Lemma decline_score_mono (d1 d2 : float) :
  Py.lt d1 d2 = true -> (Spec.decline_score d1 <= Spec.decline_score d2)%Z.
Proof.
  intros Hlt. unfold Spec.decline_score.
  band_cases d1 d2 (fun k => gt_mono k d1 d2 Hlt).
Qed.

Lemma transformation_score_mono (p1 p2 : float) :
  Py.lt p1 p2 = true ->
  (Spec.transformation_score p1 <= Spec.transformation_score p2)%Z.
Proof.
  intros Hlt. unfold Spec.transformation_score.
  band_cases p1 p2 (fun k => gt_mono k p1 p2 Hlt).
Qed.

Lemma urgency_decline_mono (d1 d2 : float) :
  Py.lt d1 d2 = true -> (Spec.urgency_decline d1 <= Spec.urgency_decline d2)%Z.
Proof.
  intros Hlt. unfold Spec.urgency_decline.
  band_cases d1 d2 (fun k => gt_mono k d1 d2 Hlt).
Qed.

Lemma urgency_habitat_antimono (n1 n2 : float) :
  Py.lt n1 n2 = true -> (Spec.urgency_habitat n2 <= Spec.urgency_habitat n1)%Z.
Proof.
  intros Hlt. unfold Spec.urgency_habitat.
  band_cases_below n1 n2 (fun k => lt_mono k n1 n2 Hlt).
Qed.

(** X9: the composite score never decreases when the annual decline or
    the transformation percentage grows, the other inputs being equal. *)
Theorem composite_score_monotone (t : string) (d1 d2 p1 p2 : float) :
  (Py.lt d1 d2 = true ->
   (calculate_composite_risk_score t d1 p1
    <= calculate_composite_risk_score t d2 p1)%Z)
  /\ (Py.lt p1 p2 = true ->
      (calculate_composite_risk_score t d1 p1
       <= calculate_composite_risk_score t d1 p2)%Z).
Proof.
  rewrite !composite_score_sum. split; intros Hlt.
  - pose proof (decline_score_mono d1 d2 Hlt). lia.
  - pose proof (transformation_score_mono p1 p2 Hlt). lia.
Qed.

Lemma composite_score_monotone_witness :
  Py.lt 0.15 0.25 = true
  /\ (calculate_composite_risk_score "EN" 0.15 30
      <= calculate_composite_risk_score "EN" 0.25 30)%Z.
Proof.
  split; [ reflexivity | ].
  apply (proj1 (composite_score_monotone "EN" 0.15 0.25 30 30)).
  reflexivity.
Defined.

(** X10: the urgency score never decreases when the annual decline grows,
    and never increases when the natural habitat percentage grows, the
    other inputs being equal. *)
Theorem urgency_score_monotone
    (t c : string) (d1 d2 n1 n2 : float) :
  exists s11 s21 s12 : Z,
    categorize_ecosystem_urgency t d1 n1 c !! "urgency_score"
    = Some (VInt s11)
    /\ categorize_ecosystem_urgency t d2 n1 c !! "urgency_score"
       = Some (VInt s21)
    /\ categorize_ecosystem_urgency t d1 n2 c !! "urgency_score"
       = Some (VInt s12)
    /\ (Py.lt d1 d2 = true -> (s11 <= s21)%Z)
    /\ (Py.lt n1 n2 = true -> (s12 <= s11)%Z).
Proof.
  rewrite !urgency_closed_form. unfold urgency_record. cbv zeta.
  eexists _, _, _.
  split; [ lookup_key; reflexivity | ].
  split; [ lookup_key; reflexivity | ].
  split; [ lookup_key; reflexivity | ].
  unfold Spec.urgency_score. split; intros Hlt.
  - pose proof (urgency_decline_mono d1 d2 Hlt). lia.
  - pose proof (urgency_habitat_antimono n1 n2 Hlt). lia.
Qed.

Lemma urgency_score_monotone_witness :
  Py.lt 20 60 = true
  /\ exists s_less s_more : Z,
       categorize_ecosystem_urgency "VU" 0.2 20 "PP" !! "urgency_score"
       = Some (VInt s_less)
       /\ categorize_ecosystem_urgency "VU" 0.2 60 "PP" !! "urgency_score"
          = Some (VInt s_more)
       /\ (s_more <= s_less)%Z.
Proof.
  split; [ reflexivity | ].
  destruct (urgency_score_monotone "VU" "PP" 0.2 0.2 20 60)
    as (s11 & _ & s12 & H11 & _ & H12 & _ & Hn).
  exists s11, s12. split; [ exact H11 | ]. split; [ exact H12 | ].
  apply Hn. reflexivity.
Defined.

(** ** The risk trajectory *)

Lemma poorly_protected_unknown (c : string) :
  c ∉ ["WP"; "MP"; "PP"; "NP"] -> poorly_protected c = false.
Proof.
  intros Hc. unfold poorly_protected, Py.contains.
  apply bool_decide_eq_false_2. intros Hin.
  apply Hc. member_cases Hin; subst c; decide_closed.
Qed.

(** The source's sequence of updates and appends amounts to the closed
    form, and no subscript fails on the way. *)
Lemma assess_closed_form (n d : float) (c : string) :
  assess_risk_trajectory n d c = PyKey.Ok (assessment n d c).
Proof.
  unfold assess_risk_trajectory, assessment, habitat_level,
    habitat_urgency_rank, decline_urgency_rank, protection_urgency_rank,
    habitat_recommendations, decline_recommendations,
    protection_recommendations, Py.lt, Py.gt.
  destruct (decide (c ∈ ["WP"; "MP"; "PP"; "NP"])) as [Hin|Hout].
  - member_cases Hin; subst c;
      destruct (n <? 30)%float, (n <? 50)%float, (n <? 70)%float,
        (0.2 <? d)%float, (0.1 <? d)%float;
      reflexivity.
  - rewrite (protection_fallback c Hout), (poorly_protected_unknown c Hout).
    destruct (n <? 30)%float, (n <? 50)%float, (n <? 70)%float,
      (0.2 <? d)%float, (0.1 <? d)%float;
      reflexivity.
Qed.

Lemma assessment_trajectory_field (n d : float) (c : string) (k : string) :
  trajectory_field (PyKey.Ok (assessment n d c)) k
  = (list_to_map [
       ("level", VStr (habitat_level n).1);
       ("color", VStr (habitat_level n).2);
       ("urgency",
        VStr (urgency_of_rank
                (habitat_urgency_rank n
                 `max` (decline_urgency_rank d
                        `max` protection_urgency_rank c))))]
     : gmap string pyobj) !! k.
Proof.
  unfold trajectory_field, assessment. lookup_key. reflexivity.
Qed.

Lemma assessment_recommendations_field (n d : float) (c : string) :
  recommendations_field (PyKey.Ok (assessment n d c))
  = Some (habitat_recommendations n ++ decline_recommendations d
          ++ protection_recommendations c)%list.
Proof.
  unfold recommendations_field, assessment. lookup_key. reflexivity.
Qed.

Lemma urgency_rank_bounds (n d : float) (c : string) :
  habitat_urgency_rank n <= 3 /\ decline_urgency_rank d <= 2
  /\ protection_urgency_rank c <= 1.
Proof.
  unfold habitat_urgency_rank, decline_urgency_rank,
    protection_urgency_rank.
  repeat match goal with |- context [ if ?b then _ else _ ] => destruct b end;
    lia.
Qed.

Lemma urgency_of_rank_inverse (rank : nat) :
  rank <= 3 ->
  trajectory_urgency_rank (urgency_of_rank rank) = rank
  /\ urgency_of_rank rank ∈ ["low"; "moderate"; "high"; "immediate"].
Proof.
  intros Hrank.
  destruct rank as [|[|[|[|rank]]]]; [ .. | lia ];
    (split; [ reflexivity | decide_closed ]).
Qed.

(** X11: [assess_risk_trajectory] never raises a [KeyError], whatever the
    protection code: it returns a dictionary with the trajectory, the
    recommendations and, under protection_status, the record of
    [get_protection_level_info]; the trajectory has exactly the keys
    level, color and urgency, and its level and color are one of four
    fixed pairs. *)
Theorem trajectory_assessment_returns (n d : float) (c : string) :
  exists (trajectory : gmap string pyobj) (recommendations : list string)
         (level color : string),
    assess_risk_trajectory n d c
    = PyKey.Ok (list_to_map [
        ("trajectory", IDict trajectory);
        ("recommendations", IList recommendations);
        ("protection_status", IDict (get_protection_level_info c))])
    /\ dom trajectory = list_to_set ["level"; "color"; "urgency"]
    /\ trajectory !! "level" = Some (VStr level)
    /\ trajectory !! "color" = Some (VStr color)
    /\ (level, color) ∈ [("critical", "#d73027"); ("high_risk", "#f46d43");
                         ("moderate_risk", "#fdae61");
                         ("stable", "#abdda4")].
Proof.
  rewrite assess_closed_form. unfold assessment.
  eexists _, _, _, _. split; [ reflexivity | ].
  split; [ by rewrite dom_list_to_map_L | ].
  split; [ lookup_key; reflexivity | ].
  split; [ lookup_key; reflexivity | ].
  unfold habitat_level.
  repeat match goal with |- context [ if ?b then _ else _ ] => destruct b end;
    decide_closed.
Qed.

(** X12: the urgency of the trajectory is the highest of the three
    urgencies its inputs set on their own, in the order low < moderate <
    high < immediate: the habitat band (below 30 immediate, below 50 high,
    below 70 moderate), a decline above 0.2 (high) and a protection code
    NP or PP (moderate). *)
Theorem trajectory_urgency_is_maximum (n d : float) (c : string) :
  exists urgency : string,
    trajectory_field (assess_risk_trajectory n d c) "urgency"
    = Some (VStr urgency)
    /\ urgency ∈ ["low"; "moderate"; "high"; "immediate"]
    /\ trajectory_urgency_rank urgency
       = habitat_urgency_rank n
         `max` (decline_urgency_rank d `max` protection_urgency_rank c).
Proof.
  rewrite assess_closed_form, assessment_trajectory_field.
  eexists. split; [ lookup_key; reflexivity | ].
  pose proof (urgency_rank_bounds n d c) as (Hn & Hd & Hc).
  apply and_comm, urgency_of_rank_inverse. lia.
Qed.

(** X13: the trajectory and the urgency classifier band the natural
    habitat alike: the habitat contribution to the urgency score of
    [categorize_ecosystem_urgency] is 3, 2, 1 or 0 exactly as the level
    of [assess_risk_trajectory] on the same habitat is critical,
    high_risk, moderate_risk or stable. *)
Theorem trajectory_level_matches_urgency_score
    (n d : float) (c : string) (t' : string) (d' : float) (c' : string) :
  exists level : string,
    trajectory_field (assess_risk_trajectory n d c) "level"
    = Some (VStr level)
    /\ level ∈ ["critical"; "high_risk"; "moderate_risk"; "stable"]
    /\ categorize_ecosystem_urgency t' d' n c' !! "urgency_score"
       = Some (VInt (Spec.urgency_threat t' + Spec.urgency_decline d'
                     + level_points level + Spec.urgency_protection c')).
Proof.
  rewrite assess_closed_form, assessment_trajectory_field,
    urgency_closed_form.
  eexists. split; [ lookup_key; reflexivity | ].
  unfold urgency_record, Spec.urgency_score. cbv zeta.
  assert (Hpoints : level_points (habitat_level n).1
                    = Spec.urgency_habitat n
                    /\ (habitat_level n).1
                       ∈ ["critical"; "high_risk"; "moderate_risk";
                          "stable"]).
  { unfold habitat_level, Spec.urgency_habitat, Py.lt.
    destruct (n <? 30)%float, (n <? 50)%float, (n <? 70)%float;
      (split; [ reflexivity | decide_closed ]). }
  destruct Hpoints as [-> Hlevel].
  split; [ exact Hlevel | lookup_key; reflexivity ].
Qed.

Lemma recommendation_lengths (n d : float) (c : string) :
  length (habitat_recommendations n) <= 2
  /\ length (decline_recommendations d) <= 1
  /\ length (protection_recommendations c) <= 1.
Proof.
  unfold habitat_recommendations, decline_recommendations,
    protection_recommendations.
  repeat match goal with |- context [ if ?b then _ else _ ] => destruct b end;
    simpl; lia.
Qed.

(** X14: the assessment gives at most four recommendations; it gives at
    least one whenever the urgency is not low; and "Improve protection
    coverage" is among them exactly when the protection code is NP or
    PP. *)
Theorem trajectory_recommendations (n d : float) (c : string) :
  exists (recommendations : list string) (urgency : string),
    recommendations_field (assess_risk_trajectory n d c)
    = Some recommendations
    /\ trajectory_field (assess_risk_trajectory n d c) "urgency"
       = Some (VStr urgency)
    /\ length recommendations <= 4
    /\ (urgency <> "low" -> recommendations <> [])
    /\ ("Improve protection coverage" ∈ recommendations
        <-> c ∈ ["NP"; "PP"]).
Proof.
  rewrite assess_closed_form, assessment_trajectory_field,
    assessment_recommendations_field.
  eexists _, _. split; [ reflexivity | ].
  split; [ lookup_key; reflexivity | ].
  split.
  { pose proof (recommendation_lengths n d c) as (Hn & Hd & Hc).
    rewrite !length_app. lia. }
  split.
  - unfold habitat_urgency_rank, decline_urgency_rank,
      protection_urgency_rank, habitat_recommendations,
      decline_recommendations, protection_recommendations.
    destruct (Py.lt n 30), (Py.lt n 50), (Py.lt n 70), (Py.gt d 0.2),
      (Py.gt d 0.1), (poorly_protected c);
      simpl; intros Hu; first [ discriminate | by destruct Hu ].
  - unfold protection_recommendations, poorly_protected, Py.contains.
    rewrite !elem_of_app.
    case_bool_decide as Hc.
    + split; [ done | ]. intros _. right. right. decide_closed.
    + split; [ | done ].
      unfold habitat_recommendations, decline_recommendations.
      intros [Hin|[Hin|Hin]]; exfalso; revert Hin;
        repeat match goal with
        | |- context [ if ?b then _ else _ ] => destruct b
        end;
        intros Hin; member_cases Hin; discriminate Hin.
Qed.

Lemma habitat_urgency_rank_antimono (n1 n2 : float) :
  Py.lt n1 n2 = true -> habitat_urgency_rank n2 <= habitat_urgency_rank n1.
Proof.
  intros Hlt. unfold habitat_urgency_rank, Py.lt.
  band_cases_below n1 n2 (fun k => lt_mono k n1 n2 Hlt).
Qed.

Lemma decline_urgency_rank_mono (d1 d2 : float) :
  Py.lt d1 d2 = true -> decline_urgency_rank d1 <= decline_urgency_rank d2.
Proof.
  intros Hlt. unfold decline_urgency_rank, Py.gt.
  band_cases d1 d2 (fun k => gt_mono k d1 d2 Hlt).
Qed.

(** X15: the urgency of the trajectory never rises when the natural
    habitat percentage grows, and never falls when the annual decline
    grows, the other inputs being equal. *)
Theorem trajectory_urgency_monotone (n1 n2 d1 d2 : float) (c : string) :
  exists u11 u21 u12 : string,
    trajectory_field (assess_risk_trajectory n1 d1 c) "urgency"
    = Some (VStr u11)
    /\ trajectory_field (assess_risk_trajectory n2 d1 c) "urgency"
       = Some (VStr u21)
    /\ trajectory_field (assess_risk_trajectory n1 d2 c) "urgency"
       = Some (VStr u12)
    /\ (Py.lt n1 n2 = true ->
        trajectory_urgency_rank u21 <= trajectory_urgency_rank u11)
    /\ (Py.lt d1 d2 = true ->
        trajectory_urgency_rank u11 <= trajectory_urgency_rank u12).
Proof.
  rewrite !assess_closed_form, !assessment_trajectory_field.
  eexists _, _, _.
  split; [ lookup_key; reflexivity | ].
  split; [ lookup_key; reflexivity | ].
  split; [ lookup_key; reflexivity | ].
  pose proof (urgency_rank_bounds n1 d1 c) as (Hn1 & Hd1 & Hc).
  pose proof (urgency_rank_bounds n2 d2 c) as (Hn2 & Hd2 & _).
  rewrite !(fun r H => proj1 (urgency_of_rank_inverse r H)) by lia.
  split; intros Hlt.
  - pose proof (habitat_urgency_rank_antimono n1 n2 Hlt). lia.
  - pose proof (decline_urgency_rank_mono d1 d2 Hlt). lia.
Qed.

Lemma trajectory_urgency_monotone_witness :
  Py.lt 25 80 = true
  /\ exists u_less u_more : string,
       trajectory_field (assess_risk_trajectory 25 0.05 "MP") "urgency"
       = Some (VStr u_less)
       /\ trajectory_field (assess_risk_trajectory 80 0.05 "MP") "urgency"
          = Some (VStr u_more)
       /\ trajectory_urgency_rank u_more <= trajectory_urgency_rank u_less.
Proof.
  split; [ reflexivity | ].
  destruct (trajectory_urgency_monotone 25 80 0.05 0.05 "MP")
    as (u11 & u21 & _ & H11 & H21 & _ & Hn & _).
  exists u11, u21. split; [ exact H11 | ]. split; [ exact H21 | ].
  apply Hn. reflexivity.
Defined.

Lemma trajectory_recommendations_witness :
  exists recommendations : list string,
    recommendations_field (assess_risk_trajectory 20 0.3 "NP")
    = Some recommendations
    /\ recommendations <> []
    /\ "Improve protection coverage" ∈ recommendations.
Proof.
  destruct (trajectory_recommendations 20 0.3 "NP")
    as (recommendations & urgency & Hr & Hu & _ & Hsome & Hprot).
  exists recommendations. split; [ exact Hr | ]. split.
  - apply Hsome. vm_compute in Hu. injection Hu as <-. discriminate.
  - apply Hprot. decide_closed.
Defined.

(** ** The performance comparison on NaN, and its second implementation *)

Lemma nan_ne_zero (n : float) : is_nan n = true -> Py.eq n 0 = false.
Proof.
  intros Hn. apply is_nan_spec in Hn. unfold Py.eq.
  by rewrite FloatAxioms.eqb_spec, Hn.
Qed.

(** X16: when the local or the national value is NaN (and the national
    value is not zero), the comparison reports the worst category of the
    metric's family: "Much Worse" for the seven directional metrics and
    "Large Difference" for any other. *)
Theorem nan_comparison_is_worst
    (format_fixed : nat -> float -> string) (l n : float) (m : string) :
  Py.eq n 0 = false ->
  is_nan l = true \/ is_nan n = true ->
  field (calculate_performance_vs_national format_fixed l n m) "category"
  = Some (VStr (if decide (m ∈ (Spec.lower_is_better
                                    ++ Spec.higher_is_better)%list)
                then "Much Worse" else "Large Difference")).
Proof.
  intros Hn Hnan.
  rewrite (performance_nonzero format_fixed l n m Hn).
  unfold field. rewrite comparison_category. do 2 f_equal.
  pose proof (nan_div l n Hnan) as Hratio.
  pose proof (nan_compare (l / n) ) as Hcmp.
  pose proof (nan_compare (abs (l / n - 1))) as Habs.
  unfold Py.ge, Py.le in Hcmp, Habs.
  unfold Spec.performance_category, Spec.category_lower_is_better,
    Spec.category_higher_is_better, Spec.category_other.
  rewrite !(proj1 (Hcmp _ Hratio)),
    !(proj1 (proj2 (proj2 (Hcmp _ Hratio)))),
    !(proj1 (proj2 (proj2 (Habs _ (nan_abs_sub _ _ Hratio))))).
  repeat case_decide; try reflexivity;
    exfalso; set_unfold; tauto.
Qed.

Lemma nan_comparison_is_worst_witness :
  Py.eq 10 0 = false /\ is_nan nan = true
  /\ field (calculate_performance_vs_national (fun _ _ => "") nan 10
              "habitat") "category"
     = Some (VStr "Much Worse").
Proof.
  split; [ reflexivity | ]. split; [ reflexivity | ].
  rewrite (nan_comparison_is_worst (fun _ _ => "") nan 10 "habitat");
    [ reflexivity | reflexivity | left; reflexivity ].
Defined.

Lemma component_zero (l n : float) (m : string) :
  Py.eq n 0 = true ->
  calculate_performance_category l n m
  = ([], Py.Return (list_to_map [("category", VStr "No Comparison");
                                 ("color", VStr "#cccccc")])).
Proof.
  intros Hn. unfold calculate_performance_category. by rewrite Hn.
Qed.

Lemma component_nonzero (l n : float) (m : string) :
  Py.eq n 0 = false ->
  calculate_performance_category l n m
  = ([Py.EvTrueDiv l n],
     Py.Return
       (let category :=
          if decide (m ∈ ["threat"; "decline"; "transformation"])
          then Spec.category_lower_is_better (l / n)
          else Spec.category_higher_is_better (l / n) in
        list_to_map [("category", VStr category);
                     ("color", VStr (performance_color category))])).
Proof.
  intros Hn. unfold calculate_performance_category.
  rewrite Hn. unfold Py.eq in Hn.
  unfold Py.truediv, Py.bind, Py.ret. rewrite Hn.
  unfold Spec.category_lower_is_better, Spec.category_higher_is_better,
    Py.contains, Py.le, Py.ge.
  cbv zeta.
  destruct (decide (m ∈ ["threat"; "decline"; "transformation"]))
    as [Hlow|Hlow];
    [ rewrite (bool_decide_eq_true_2 _ Hlow)
    | rewrite (bool_decide_eq_false_2 _ Hlow) ];
    repeat match goal with
    | |- context [ if (?a <=? ?b)%float then _ else _ ] =>
        destruct (a <=? b)%float
    end;
    reflexivity.
Qed.

(** X17: [calculate_performance_category] of the comparison panel never
    raises, and it gives the same category and color as
    [calculate_performance_vs_national] whenever the national value is
    zero or the metric is one of threat, decline, transformation, habitat,
    protection, natural. *)
Theorem performance_implementations_agree
    (format_fixed : nat -> float -> string) (l n : float) (m : string) :
  (exists (log : list Py.event) (r : gmap string pyobj),
     calculate_performance_category l n m = (log, Py.Return r))
  /\ (Py.eq n 0 = true
      \/ m ∈ ["threat"; "decline"; "transformation"; "habitat";
              "protection"; "natural"] ->
      field (calculate_performance_category l n m) "category"
      = field (calculate_performance_vs_national format_fixed l n m)
          "category"
      /\ field (calculate_performance_category l n m) "color"
         = field (calculate_performance_vs_national format_fixed l n m)
             "color").
Proof.
  destruct (Py.eq n 0) eqn:Hn.
  - rewrite (component_zero l n m Hn),
      (performance_zero format_fixed l n m Hn).
    split; [ by eexists _, _ | intros _; split; reflexivity ].
  - rewrite (component_nonzero l n m Hn),
      (performance_nonzero format_fixed l n m Hn).
    split; [ by eexists _, _ | ].
    intros [Hzero|Hm]; [ discriminate Hzero | ].
    unfold field, comparison, Spec.performance_category,
      Spec.lower_is_better, Spec.higher_is_better.
    cbv zeta.
    member_cases Hm; subst m;
      repeat (rewrite decide_True by decide_closed
              || rewrite decide_False by decide_closed);
      split; lookup_key; reflexivity.
Qed.

Lemma performance_implementations_agree_witness :
  field (calculate_performance_category 12 10 "habitat") "category"
  = Some (VStr "Better")
  /\ field (calculate_performance_vs_national (fun _ _ => "") 12 10
              "habitat") "category"
     = Some (VStr "Better").
Proof.
  destruct (performance_implementations_agree (fun _ _ => "") 12 10
              "habitat") as (_ & Hagree).
  destruct Hagree as [Hcat _]; [ right; decide_closed | ].
  split; [ reflexivity | ].
  rewrite <- Hcat. reflexivity.
Defined.

(** X18: the two implementations read the metric "loss" in opposite
    directions: when the ratio is at most 0.7,
    [calculate_performance_vs_national] reports "Much Better" and
    [calculate_performance_category] reports "Worse" or "Much Worse". *)
Theorem performance_implementations_differ_on_loss
    (format_fixed : nat -> float -> string) (l n : float) :
  Py.eq n 0 = false ->
  Py.le (l / n) 0.7 = true ->
  field (calculate_performance_vs_national format_fixed l n "loss")
    "category"
  = Some (VStr "Much Better")
  /\ exists category : string,
       field (calculate_performance_category l n "loss") "category"
       = Some (VStr category)
       /\ category ∈ ["Worse"; "Much Worse"].
Proof.
  intros Hn Hratio.
  rewrite (component_nonzero l n "loss" Hn),
    (performance_nonzero format_fixed l n "loss" Hn).
  unfold field. rewrite comparison_category. cbv zeta.
  unfold Spec.performance_category.
  rewrite decide_True by decide_closed.
  rewrite decide_False by decide_closed.
  assert (Habove : forall k : float,
             Py.le k 0.7 = false -> (k <=? l / n)%float = false).
  { intros k Hk. destruct (k <=? l / n)%float eqn:Hkr; [ | reflexivity ].
    rewrite <- Hk. symmetry. exact (le_trans k (l / n) 0.7 Hkr Hratio). }
  unfold Py.le in Hratio.
  split.
  - unfold Spec.category_lower_is_better. by rewrite Hratio.
  - eexists. split; [ lookup_key; reflexivity | ].
    unfold Spec.category_higher_is_better.
    rewrite !Habove by reflexivity.
    destruct (0.7 <=? l / n)%float; decide_closed.
Qed.

Lemma performance_implementations_differ_on_loss_witness :
  Py.eq 10 0 = false /\ Py.le (5 / 10) 0.7 = true
  /\ field (calculate_performance_vs_national (fun _ _ => "") 5 10 "loss")
       "category"
     = Some (VStr "Much Better")
  /\ field (calculate_performance_category 5 10 "loss") "category"
     = Some (VStr "Much Worse").
Proof.
  split; [ reflexivity | ]. split; [ reflexivity | ].
  split.
  - apply (performance_implementations_differ_on_loss (fun _ _ => "") 5 10);
      reflexivity.
  - reflexivity.
Defined.
